(** * A shallow embedding of [banking.py]

    The ledger core of the console banking application: [Transaction],
    [Account] with its two subclasses [CheckingAccount] and [SavingsAccount],
    and [Bank].  The interactive menu ([main]) is a caller of this core and
    is not modelled; its input loop [get_valid_input] is, on the lines the
    standard input holds.

    Conventions of the embedding.
    - A Python [float] is an element of an abstract [Number]: the model only
      uses the operators the source uses ([+], [-], [*], [/], [<], [<=]) and
      assumes nothing about them.  Two implementations are given below, IEEE
      binary64 (what CPython computes) and exact rationals (the "decimal" of
      the specification).  Theorems that need arithmetic laws name them.
    - A method that mutates [self] and may raise is a function from the state
      before the call to a [Run]: the outcome, the state when the call ended
      and the lines it printed.
    - [uuid.uuid4()] and [datetime.datetime.now().month] are inputs of the
      functions that read them.  Transaction identifiers and timestamps are
      written once and never read by the ledger logic; they are left out. *)

From Stdlib Require Import String List ZArith Bool Lia.
From Stdlib Require Import QArith Qcanon.
From Stdlib Require Import Floats.
Import ListNotations.

Local Open Scope string_scope.
Local Open Scope list_scope.

(** ** Numbers *)

(** The operations of Python's [float] that the source uses.  [x > y] is
    written [ltb y x]. *)
Class Number : Type := {
  num : Type;
  zero : num;
  twelve : num;
  add : num -> num -> num;
  sub : num -> num -> num;
  mul : num -> num -> num;
  div : num -> num -> num;
  ltb : num -> num -> bool;
  leb : num -> num -> bool
}.

Section Model.

Context {N : Number}.

(** ** Transactions *)

(** [class Transaction]: the fields the ledger reads. *)
Record Transaction : Type := mkTransaction {
  transaction_type : string;
  amount : num;
  description : string
}.

(** ** Exceptions and printed lines *)

(** The exceptions the core raises.  Each carries what its message is built
    from.  [AttributeError] is what Python raises when a savings-only
    attribute is read on an object that has none, or a method is called on
    [None]. *)
Inductive exn : Type :=
| InsufficientFundsError (current_balance : num)
| InvalidAmountError (message : string)
| MonthlyWithdrawalLimitError (limit : Z)
| ValueError (message : string)
| AttributeError.

(** The lines the core prints, by the data they are formatted from. *)
Inductive output : Type :=
| Deposited (amount : num)
| Withdrew (amount : num)
| AppliedInterest (interest_amount : num)
| TransferSucceeded (amount : num) (from_account_number to_account_number : string)
| TransferFailed (e : exn).

(** ** Method calls *)

Inductive outcome (A : Type) : Type :=
| Returned (a : A)
| Raised (e : exn).

Arguments Returned {A} a.
Arguments Raised {A} e.

Record Run (S A : Type) : Type := mkRun {
  result : outcome A;
  state : S;
  stdout : list output
}.

Arguments mkRun {S A} result state stdout.
Arguments result {S A} r.
Arguments state {S A} r.
Arguments stdout {S A} r.

(** A method on an object of type [S] returning an [A]. *)
Definition M (S A : Type) : Type := S -> Run S A.

Definition ret {S A : Type} (a : A) : M S A :=
  fun s => mkRun (Returned a) s [].

Definition raise {S A : Type} (e : exn) : M S A :=
  fun s => mkRun (Raised e) s [].

(** Sequencing: a raised exception ends the method, the mutations made so far
    stay. *)
Definition bind {S A B : Type} (m : M S A) (f : A -> M S B) : M S B :=
  fun s =>
    let r := m s in
    match result r with
    | Returned a =>
        let r' := f a (state r) in
        mkRun (result r') (state r') (stdout r ++ stdout r')
    | Raised e => mkRun (Raised e) (state r) (stdout r)
    end.

Definition get {S : Type} : M S S :=
  fun s => mkRun (Returned s) s [].

Definition modify {S : Type} (f : S -> S) : M S unit :=
  fun s => mkRun (Returned tt) (f s) [].

Definition print {S : Type} (o : output) : M S unit :=
  fun s => mkRun (Returned tt) s [o].

(** [try: body except Exception as e: handler e]. *)
Definition try_except {S A : Type} (body : M S A) (handler : exn -> M S A) : M S A :=
  fun s =>
    let r := body s in
    match result r with
    | Returned a => r
    | Raised e =>
        let r' := handler e (state r) in
        mkRun (result r') (state r') (stdout r ++ stdout r')
    end.

Notation "x <- m ;; k" := (bind m (fun x => k))
  (at level 61, m at next level, right associativity).
Notation "m ;; k" := (bind m (fun _ => k))
  (at level 61, right associativity).

(** ** Accounts *)

(** The attributes [SavingsAccount.__init__] adds.  [last_withdrawal_month]
    is [None] or a month number. *)
Record SavingsFields : Type := mkSavingsFields {
  interest_rate : num;
  withdrawal_limit : Z;
  withdrawals_this_month : Z;
  last_withdrawal_month : option Z
}.

(** The concrete class of an account object ([Account] itself is abstract). *)
Inductive AccountClass : Type :=
| CheckingAccount
| SavingsAccount (fields : SavingsFields).

Record Account : Type := mkAccount {
  account_number : string;
  name : string;
  balance : num;
  transactions : list Transaction;
  class : AccountClass
}.

Definition isinstance_SavingsAccount (account : Account) : bool :=
  match class account with SavingsAccount _ => true | CheckingAccount => false end.

Definition isinstance_CheckingAccount (account : Account) : bool :=
  match class account with CheckingAccount => true | SavingsAccount _ => false end.

Definition set_balance (b : num) (self : Account) : Account :=
  mkAccount (account_number self) (name self) b (transactions self) (class self).

(** [self._transactions.append(t)] *)
Definition append_transaction (t : Transaction) (self : Account) : Account :=
  mkAccount (account_number self) (name self) (balance self)
            (transactions self ++ [t]) (class self).

Definition set_savings (f : SavingsFields) (self : Account) : Account :=
  mkAccount (account_number self) (name self) (balance self)
            (transactions self) (SavingsAccount f).

(** Reading the savings attributes of [self]. *)
Definition get_savings : M Account SavingsFields :=
  fun self =>
    match class self with
    | SavingsAccount f => mkRun (Returned f) self []
    | CheckingAccount => mkRun (Raised AttributeError) self []
    end.

(** [Account.__init__], called by both subclasses through [super()].  The
    account number is the first eight characters of a fresh UUID; [cls] holds
    the attributes the subclass adds once [super().__init__] has returned. *)
Definition Account_init (cls : AccountClass) (uuid name : string)
    (initial_balance : num) : outcome Account :=
  if ltb initial_balance zero
  then Raised (InvalidAmountError "Initial balance cannot be negative")
  else Returned (mkAccount (substring 0 8 uuid) name initial_balance
                   (if ltb zero initial_balance
                    then [mkTransaction "deposit" initial_balance "Initial deposit"]
                    else [])
                   cls).

Definition CheckingAccount_init (uuid name : string) (initial_balance : num)
    : outcome Account :=
  Account_init CheckingAccount uuid name initial_balance.

Definition SavingsAccount_init (current_month : Z) (uuid name : string)
    (initial_balance interest_rate : num) : outcome Account :=
  Account_init
    (SavingsAccount
       (mkSavingsFields interest_rate 3 0
          (if ltb zero initial_balance then Some current_month else None)))
    uuid name initial_balance.

(** [Account.deposit] *)
Definition Account_deposit (amount : num) (description : string) : M Account unit :=
  if leb amount zero
  then raise (InvalidAmountError "Deposit amount must be positive")
  else
    modify (fun self => set_balance (add (balance self) amount) self) ;;
    modify (append_transaction (mkTransaction "deposit" amount description)) ;;
    print (Deposited amount).

(** [Account.withdraw], the method of the base class. *)
Definition Account_withdraw (amount : num) (description : string) : M Account unit :=
  if leb amount zero
  then raise (InvalidAmountError "Withdrawal amount must be positive")
  else
    self <- get ;;
    if ltb (balance self) amount
    then raise (InsufficientFundsError (balance self))
    else
      modify (fun self => set_balance (sub (balance self) amount) self) ;;
      modify (append_transaction (mkTransaction "withdrawal" amount description)) ;;
      print (Withdrew amount).

(** [Account.add_transaction_record] *)
Definition Account_add_transaction_record (transaction_type : string)
    (amount : num) (description : string) : M Account unit :=
  modify (append_transaction (mkTransaction transaction_type amount description)).

(** [Account.get_transaction_history]: a copy of the log. *)
Definition Account_get_transaction_history : M Account (list Transaction) :=
  self <- get ;; ret (transactions self).

(** [self._last_withdrawal_month != current_month] *)
Definition month_differs (last : option Z) (current_month : Z) : bool :=
  match last with
  | Some m => negb (m =? current_month)%Z
  | None => true
  end.

(** The month rollover that opens both [SavingsAccount.withdraw] and
    [SavingsAccount.withdrawals_remaining]. *)
Definition reset_if_new_month (current_month : Z) : M Account unit :=
  f <- get_savings ;;
  if month_differs (last_withdrawal_month f) current_month
  then modify (set_savings
                 (mkSavingsFields (interest_rate f) (withdrawal_limit f)
                    0 (Some current_month)))
  else ret tt.

(** [SavingsAccount.withdrawals_remaining] *)
Definition SavingsAccount_withdrawals_remaining (current_month : Z) : M Account Z :=
  reset_if_new_month current_month ;;
  f <- get_savings ;;
  ret (withdrawal_limit f - withdrawals_this_month f)%Z.

(** [SavingsAccount.apply_interest] *)
Definition SavingsAccount_apply_interest : M Account num :=
  f <- get_savings ;;
  self <- get ;;
  let interest_amount := mul (balance self) (div (interest_rate f) twelve) in
  (if ltb zero interest_amount
   then
     modify (fun self => set_balance (add (balance self) interest_amount) self) ;;
     modify (append_transaction
               (mkTransaction "interest" interest_amount "Monthly interest")) ;;
     print (AppliedInterest interest_amount)
   else ret tt) ;;
  ret interest_amount.

(** [SavingsAccount.withdraw] *)
Definition SavingsAccount_withdraw (current_month : Z) (amount : num)
    (description : string) : M Account unit :=
  reset_if_new_month current_month ;;
  f <- get_savings ;;
  if (withdrawals_this_month f >=? withdrawal_limit f)%Z
  then raise (MonthlyWithdrawalLimitError (withdrawal_limit f))
  else
    Account_withdraw amount description ;;
    f <- get_savings ;;
    modify (set_savings
              (mkSavingsFields (interest_rate f) (withdrawal_limit f)
                 (withdrawals_this_month f + 1) (last_withdrawal_month f))).

(** [account.withdraw(...)]: the method the object's class selects. *)
Definition withdraw (current_month : Z) (amount : num) (description : string)
    : M Account unit :=
  fun self =>
    match class self with
    | CheckingAccount => Account_withdraw amount description self
    | SavingsAccount _ => SavingsAccount_withdraw current_month amount description self
    end.

(** [account.deposit(...)]: no subclass overrides it. *)
Definition deposit (amount : num) (description : string) : M Account unit :=
  Account_deposit amount description.

(** ** The bank *)

(** [Bank._accounts], a [dict] from account number to account object, in
    insertion order (the order [values()] iterates in).  The bank's display
    name is not modelled. *)
Definition Bank : Type := list (string * Account).

(** [d.get(k)] *)
Fixpoint dict_get (k : string) (d : Bank) : option Account :=
  match d with
  | [] => None
  | (k', v) :: d' => if (k =? k')%string then Some v else dict_get k d'
  end.

(** [d[k] = v]: a present key keeps its place, a new one goes last. *)
Fixpoint dict_set (k : string) (v : Account) (d : Bank) : Bank :=
  match d with
  | [] => [(k, v)]
  | (k', v') :: d' =>
      if (k =? k')%string then (k, v) :: d' else (k', v') :: dict_set k v d'
  end.

(** [d.values()] *)
Definition values (d : Bank) : list Account := map snd d.

(** A method call on the account object stored under [account_number]: the
    object is mutated in place, so the bank sees the state the call left. *)
Definition on_account {A : Type} (account_number : string) (m : M Account A)
    : M Bank A :=
  fun bank =>
    match dict_get account_number bank with
    | Some self =>
        let r := m self in
        mkRun (result r) (dict_set account_number (state r) bank) (stdout r)
    | None => mkRun (Raised AttributeError) bank []
    end.

Definition lift_outcome {S A : Type} (o : outcome A) : M S A :=
  fun s => mkRun o s [].

(** Python's [str.lower]. *)
Variable lower : string -> string.

(** [Bank.create_account] *)
Definition Bank_create_account (uuid : string) (current_month : Z)
    (account_type name : string) (initial_balance interest_rate : num)
    : M Bank Account :=
  let account_type := lower account_type in
  account <-
    (if (account_type =? "checking")%string
     then lift_outcome (CheckingAccount_init uuid name initial_balance)
     else if (account_type =? "savings")%string
     then lift_outcome
            (SavingsAccount_init current_month uuid name initial_balance interest_rate)
     else raise (ValueError "Invalid account type. Choose 'checking' or 'savings'")) ;;
  modify (dict_set (account_number account) account) ;;
  ret account.

(** [Bank.get_account] *)
Definition Bank_get_account (account_number : string) (self : Bank)
    : option Account :=
  dict_get account_number self.

(** [Bank.get_all_accounts] *)
Definition Bank_get_all_accounts (self : Bank) : list Account := values self.

(** The loop of [Bank.apply_interest_to_savings_accounts] over the entries
    still to visit, with the running total. *)
Fixpoint apply_interest_loop (entries : Bank) (total_interest : num)
    : Run Bank num :=
  match entries with
  | [] => mkRun (Returned total_interest) [] []
  | (k, account) :: rest =>
      if isinstance_SavingsAccount account then
        let r := SavingsAccount_apply_interest account in
        match result r with
        | Returned interest =>
            let r' := apply_interest_loop rest (add total_interest interest) in
            mkRun (result r') ((k, state r) :: state r') (stdout r ++ stdout r')
        | Raised e => mkRun (Raised e) ((k, state r) :: rest) (stdout r)
        end
      else
        let r' := apply_interest_loop rest total_interest in
        mkRun (result r') ((k, account) :: state r') (stdout r')
  end.

(** [Bank.apply_interest_to_savings_accounts] *)
Definition Bank_apply_interest_to_savings_accounts : M Bank num :=
  fun self => apply_interest_loop self zero.

(** [Bank.transfer] *)
Definition Bank_transfer (current_month : Z)
    (from_account_number to_account_number : string) (amount : num)
    : M Bank bool :=
  self <- get ;;
  match Bank_get_account from_account_number self,
        Bank_get_account to_account_number self with
  | None, _ =>
      raise (ValueError ("Source account " ++ from_account_number ++ " not found"))
  | Some _, None =>
      raise (ValueError
               ("Destination account " ++ to_account_number ++ " not found"))
  | Some from_account, Some to_account =>
      if (from_account_number =? to_account_number)%string
      then raise (ValueError "Cannot transfer to the same account")
      else if leb amount zero
      then raise (InvalidAmountError "Transfer amount must be positive")
      else if ltb (balance from_account) amount
      then raise (InsufficientFundsError (balance from_account))
      else
        try_except
          ((if isinstance_SavingsAccount from_account
            then
              on_account from_account_number
                (withdraw current_month amount
                   ("Transfer to account " ++ to_account_number)) ;;
              on_account to_account_number
                (deposit amount ("Transfer from account " ++ from_account_number))
            else
              on_account from_account_number
                (withdraw current_month amount
                   ("Transfer to account " ++ to_account_number)) ;;
              on_account to_account_number
                (deposit amount ("Transfer from account " ++ from_account_number))) ;;
           print (TransferSucceeded amount from_account_number to_account_number) ;;
           ret true)
          (fun e => print (TransferFailed e) ;; ret false)
  end.

(** Python's [sum] over numbers: it starts from [0] and adds from the left. *)
Definition py_sum (xs : list num) : num := fold_left add xs zero.

(** The dictionary [Bank.get_bank_statistics] returns. *)
Record Statistics : Type := mkStatistics {
  total_accounts : nat;
  checking_accounts : nat;
  savings_accounts : nat;
  total_balance : num;
  checking_balance : num;
  savings_balance : num
}.

(** [Bank.get_bank_statistics] *)
Definition Bank_get_bank_statistics : M Bank Statistics :=
  self <- get ;;
  let total_accounts := length self in
  let checking_accounts := length (filter isinstance_CheckingAccount (values self)) in
  let savings_accounts := length (filter isinstance_SavingsAccount (values self)) in
  let total_balance := py_sum (map balance (values self)) in
  let checking_balance :=
    py_sum (map balance (filter isinstance_CheckingAccount (values self))) in
  let savings_balance :=
    py_sum (map balance (filter isinstance_SavingsAccount (values self))) in
  ret (mkStatistics total_accounts checking_accounts savings_accounts
         total_balance checking_balance savings_balance).

(** ** Sessions *)

(** One call of the public interface, as the menu makes them: on the bank, or
    on an account object it got from the bank. *)
Inductive call : Type :=
| create_account (uuid : string) (current_month : Z) (account_type name : string)
    (initial_balance interest_rate : num)
| account_deposit (account_number : string) (amount : num) (description : string)
| account_withdraw (current_month : Z) (account_number : string) (amount : num)
    (description : string)
| account_apply_interest (account_number : string)
| account_withdrawals_remaining (current_month : Z) (account_number : string)
| transfer (current_month : Z) (from_account_number to_account_number : string)
    (amount : num)
| apply_interest_to_savings_accounts
| get_bank_statistics.

(** The bank after a call, whatever the call returned or raised. *)
Definition perform (c : call) (bank : Bank) : Bank :=
  match c with
  | create_account uuid current_month account_type name initial_balance interest_rate =>
      state (Bank_create_account uuid current_month account_type name
               initial_balance interest_rate bank)
  | account_deposit account_number amount description =>
      state (on_account account_number (deposit amount description) bank)
  | account_withdraw current_month account_number amount description =>
      state (on_account account_number (withdraw current_month amount description) bank)
  | account_apply_interest account_number =>
      state (on_account account_number SavingsAccount_apply_interest bank)
  | account_withdrawals_remaining current_month account_number =>
      state (on_account account_number
               (SavingsAccount_withdrawals_remaining current_month) bank)
  | transfer current_month from_account_number to_account_number amount =>
      state (Bank_transfer current_month from_account_number to_account_number
               amount bank)
  | apply_interest_to_savings_accounts =>
      state (Bank_apply_interest_to_savings_accounts bank)
  | get_bank_statistics => state (Bank_get_bank_statistics bank)
  end.

(** A session: the calls in order, from a given bank. *)
Fixpoint run (calls : list call) (bank : Bank) : Bank :=
  match calls with
  | [] => bank
  | c :: calls' => run calls' (perform c bank)
  end.

(** The account number and initial balance of the account a call creates,
    when it creates one. *)
Definition opened (c : call) : option (string * num) :=
  match c with
  | create_account uuid current_month account_type name initial_balance interest_rate =>
      match result (Bank_create_account uuid current_month account_type name
                      initial_balance interest_rate []) with
      | Returned account => Some (account_number account, initial_balance)
      | Raised _ => None
      end
  | _ => None
  end.

(** The initial balance the account stored under [k] was created with: that
    of the last call of the session that created an account numbered [k]. *)
Fixpoint initial_balance_of (calls : list call) (k : string) : option num :=
  match calls with
  | [] => None
  | c :: calls' =>
      match initial_balance_of calls' k with
      | Some b => Some b
      | None =>
          match opened c with
          | Some (k', b) => if (k =? k')%string then Some b else None
          | None => None
          end
      end
  end.

(** ** The ledger sum *)

(** The effect of one log entry on a running balance. *)
Definition apply_transaction (b : num) (t : Transaction) : num :=
  if (transaction_type t =? "deposit")%string then add b (amount t)
  else if (transaction_type t =? "interest")%string then add b (amount t)
  else if (transaction_type t =? "withdrawal")%string then sub b (amount t)
  else b.

(** The log [Account.__init__] leaves. *)
Definition initial_log (initial_balance : num) : list Transaction :=
  if ltb zero initial_balance
  then [mkTransaction "deposit" initial_balance "Initial deposit"]
  else [].

(** The balance is the initial balance with the entries logged after
    construction applied in order. *)
Definition ledger_sum (initial_balance : num) (account : Account) : Prop :=
  exists later : list Transaction,
    transactions account = initial_log initial_balance ++ later /\
    balance account = fold_left apply_transaction later initial_balance.

(** The invariant as the specification words it: the initial balance with
    every entry of the log applied. *)
Definition ledger_sum_whole_log (initial_balance : num) (account : Account) : Prop :=
  balance account = fold_left apply_transaction (transactions account) initial_balance.

End Model.

Arguments Returned {N A} a.
Arguments Raised {N A} e.
Arguments mkRun {N S A} result state stdout.
Arguments result {N S A} r.
Arguments state {N S A} r.
Arguments stdout {N S A} r.

(** ** Two implementations of the numbers *)

(** IEEE 754 binary64, CPython's [float]. *)
#[warning="-projection-no-head-constant"]
Canonical Structure binary64 : Number :=
  {| num := float;
     zero := 0%float;
     twelve := 12%float;
     add := PrimFloat.add;
     sub := PrimFloat.sub;
     mul := PrimFloat.mul;
     div := PrimFloat.div;
     ltb := PrimFloat.ltb;
     leb := PrimFloat.leb |}.

(** Exact rationals. *)
Canonical Structure exact : Number :=
  {| num := Qc;
     zero := Q2Qc 0;
     twelve := Q2Qc 12;
     add := Qcplus;
     sub := Qcminus;
     mul := Qcmult;
     div := Qcdiv;
     ltb := fun x y => negb (Qle_bool y x);
     leb := fun x y => Qle_bool x y |}.

(** [str.lower] on ASCII text. *)
Definition ascii_lower (c : Ascii.ascii) : Ascii.ascii :=
  let n := Ascii.nat_of_ascii c in
  if (andb (65 <=? n) (n <=? 90))%nat then Ascii.ascii_of_nat (n + 32) else c.

Fixpoint str_lower (s : string) : string :=
  match s with
  | EmptyString => EmptyString
  | String c s' => String (ascii_lower c) (str_lower s')
  end.

(** ** Laws of arithmetic *)

(** What keeps a balance non-negative.  [finite] singles out the amounts the
    laws are stated for: every exact number, and in binary64 the numbers
    other than the infinities and NaN. *)
Class NonNegative (N : Number) : Type := {
  finite : num -> Prop;
  nonneg_not_lt :
    forall x, finite x -> ltb x zero = false -> leb zero x = true;
  nonneg_add :
    forall b a, leb zero b = true -> finite a -> leb a zero = false ->
                leb zero (add b a) = true;
  nonneg_add_pos :
    forall b i, leb zero b = true -> ltb zero i = true ->
                leb zero (add b i) = true;
  nonneg_sub :
    forall b a, leb zero b = true -> finite a -> leb a zero = false ->
                ltb b a = false -> leb zero (sub b a) = true
}.

(** Addition without rounding: a commutative monoid. *)
Class ExactAddition (N : Number) : Prop := {
  add_comm : forall x y : num, add x y = add y x;
  add_assoc : forall x y z : num, add x (add y z) = add (add x y) z;
  add_zero_l : forall x : num, add zero x = x
}.

(** ** Statements *)

Section Statements.

Context {N : Number}.

(** Whether [SavingsAccount.withdraw] finds the monthly limit reached, once
    the month rollover has been applied.  A checking account has no limit. *)
Definition limit_reached (current_month : Z) (self : Account) : bool :=
  match class self with
  | CheckingAccount => false
  | SavingsAccount f =>
      if month_differs (last_withdrawal_month f) current_month
      then (0 >=? withdrawal_limit f)%Z
      else (withdrawals_this_month f >=? withdrawal_limit f)%Z
  end.

(** The withdrawal count [SavingsAccount.withdraw] works with, once the month
    rollover has been applied. *)
Definition count_after_rollover (current_month : Z) (f : SavingsFields) : Z :=
  if month_differs (last_withdrawal_month f) current_month
  then 0%Z
  else withdrawals_this_month f.

(** The account after the month rollover of [SavingsAccount.withdraw]. *)
Definition rolled_over (current_month : Z) (self : Account) : Account :=
  match class self with
  | CheckingAccount => self
  | SavingsAccount f =>
      if month_differs (last_withdrawal_month f) current_month
      then set_savings
             (mkSavingsFields (interest_rate f) (withdrawal_limit f)
                0 (Some current_month)) self
      else self
  end.

(** One more withdrawal counted on a savings account. *)
Definition counted (self : Account) : Account :=
  match class self with
  | CheckingAccount => self
  | SavingsAccount f =>
      set_savings
        (mkSavingsFields (interest_rate f) (withdrawal_limit f)
           (withdrawals_this_month f + 1) (last_withdrawal_month f)) self
  end.

(** The account after a withdrawal that went through. *)
Definition withdrawn (current_month : Z) (amount : num) (description : string)
    (self : Account) : Account :=
  counted
    (append_transaction (mkTransaction "withdrawal" amount description)
       (set_balance (sub (balance self) amount) (rolled_over current_month self))).

(** The account after a deposit that went through. *)
Definition deposited (amount : num) (description : string) (self : Account)
    : Account :=
  append_transaction (mkTransaction "deposit" amount description)
    (set_balance (add (balance self) amount) self).

(** The withdraw contract as the specification states it for every account:
    the amount checks alone decide the outcome. *)
Definition withdraw_contract_as_stated (current_month : Z) (amount : num)
    (description : string) (self : Account) : Prop :=
  let r := withdraw current_month amount description self in
  (leb amount zero = true ->
     (exists message, result r = Raised (InvalidAmountError message)) /\
     balance (state r) = balance self /\
     transactions (state r) = transactions self) /\
  (leb amount zero = false -> ltb (balance self) amount = true ->
     (exists b, result r = Raised (InsufficientFundsError b)) /\
     balance (state r) = balance self /\
     transactions (state r) = transactions self) /\
  (leb amount zero = false -> ltb (balance self) amount = false ->
     result r = Returned tt /\
     balance (state r) = sub (balance self) amount /\
     transactions (state r) =
       transactions self ++ [mkTransaction "withdrawal" amount description]).

(** The limit a savings account's [MonthlyWithdrawalLimitError] reports. *)
Definition limit_of (self : Account) : Z :=
  match class self with
  | SavingsAccount f => withdrawal_limit f
  | CheckingAccount => 0%Z
  end.

(** The balance and the log of the account stored under [k], if any. *)
Definition ledger_of (k : string) (bank : Bank) : option (num * list Transaction) :=
  match dict_get k bank with
  | Some account => Some (balance account, transactions account)
  | None => None
  end.

(** The claim that [transfer] reports every business-rule failure as a
    returned boolean, as the specification states it. *)
Definition transfer_returns_boolean (current_month : Z)
    (from_account_number to_account_number : string) (amount : num)
    (bank : Bank) : Prop :=
  exists b : bool,
    result (Bank_transfer current_month from_account_number to_account_number
              amount bank) = Returned b.

(** The amount [SavingsAccount.apply_interest] computes and returns. *)
Definition interest_amount (self : Account) : num :=
  match class self with
  | SavingsAccount f => mul (balance self) (div (interest_rate f) twelve)
  | CheckingAccount => zero
  end.

(** The account after the interest sweep visited it: a savings account whose
    interest amount is positive is credited with it and logs one "interest"
    transaction; any other account is left as it was. *)
Definition credited (self : Account) : Account :=
  if isinstance_SavingsAccount self && ltb zero (interest_amount self)
  then append_transaction
         (mkTransaction "interest" (interest_amount self) "Monthly interest")
         (set_balance (add (balance self) (interest_amount self)) self)
  else self.

(** What the sweep prints for one account. *)
Definition interest_line (self : Account) : list output :=
  if isinstance_SavingsAccount self && ltb zero (interest_amount self)
  then [AppliedInterest (interest_amount self)]
  else [].

(** The account object [create_account] builds, once its checks passed. *)
Definition new_account (cls : AccountClass) (uuid name : string)
    (initial_balance : num) : Account :=
  mkAccount (substring 0 8 uuid) name initial_balance
    (initial_log initial_balance) cls.

(** The attributes of a new savings account. *)
Definition new_savings (current_month : Z) (initial_balance interest_rate : num)
    : SavingsFields :=
  mkSavingsFields interest_rate 3 0
    (if ltb zero initial_balance then Some current_month else None).

(** A property of every account of the bank, which may depend on the number
    the account is stored under. *)
Definition holds (P : string -> Account -> Prop) (bank : Bank) : Prop :=
  forall k account, dict_get k bank = Some account -> P k account.

(** A predicate on the amounts a call passes in. *)
Definition call_amounts (ok : num -> Prop) (c : call) : Prop :=
  match c with
  | create_account _ _ _ _ initial_balance _ => ok initial_balance
  | account_deposit _ amount _ => ok amount
  | account_withdraw _ _ amount _ => ok amount
  | transfer _ _ _ amount => ok amount
  | _ => True
  end.

(** The initial balances on record after one more call. *)
Definition record_opening (lower : string -> string) (g : string -> option num)
    (c : call) (k : string) : option num :=
  match opened lower c with
  | Some (k', b) => if (k =? k')%string then Some b else g k
  | None => g k
  end.

(** The initial balances on record after a session. *)
Definition record_openings (lower : string -> string) (g : string -> option num)
    (calls : list call) (k : string) : option num :=
  match initial_balance_of lower calls k with
  | Some b => Some b
  | None => g k
  end.

(** The ledger-sum invariant of the account stored under [k], for the initial
    balances on record. *)
Definition ledger_sum_on_record (g : string -> option num) (k : string)
    (account : Account) : Prop :=
  exists initial_balance,
    g k = Some initial_balance /\ ledger_sum initial_balance account.

(** The claims that fail as they are stated, over a whole session. *)

(** The ledger-sum invariant as the specification words it. *)
Definition ledger_sum_as_stated (lower : string -> string) (calls : list call)
    : Prop :=
  forall k account initial_balance,
    dict_get k (run lower calls []) = Some account ->
    initial_balance_of lower calls k = Some initial_balance ->
    ledger_sum_whole_log initial_balance account.

(** Balance non-negativity as the specification words it. *)
Definition balance_non_negative_as_stated (lower : string -> string)
    (calls : list call) : Prop :=
  forall k account,
    dict_get k (run lower calls []) = Some account ->
    leb zero (balance account) = true.

(** The partition identities of the statistics as stated. *)
Definition statistics_partition_as_stated (bank : Bank) : Prop :=
  forall s,
    result (Bank_get_bank_statistics bank) = Returned s ->
    total_accounts s = (checking_accounts s + savings_accounts s)%nat /\
    total_balance s = add (checking_balance s) (savings_balance s).



(** Transfer conservation as the specification states it: after a transfer
    that succeeded, the balance of the source is lower and the balance of
    the destination higher than before, each by exactly the amount. *)
Definition transfer_conservation_as_stated (current_month : Z)
    (from_account_number to_account_number : string) (amount : num)
    (bank : Bank) : Prop :=
  let r := Bank_transfer current_month from_account_number to_account_number
             amount bank in
  result r = Returned true ->
  exists a b a' b',
    dict_get from_account_number bank = Some a /\
    dict_get to_account_number bank = Some b /\
    dict_get from_account_number (state r) = Some a' /\
    dict_get to_account_number (state r) = Some b' /\
    sub (balance a) (balance a') = amount /\
    sub (balance b') (balance b) = amount.





End Statements.

(** The binary64 values that are [>= 0]: the zeros, the positive finite
    numbers and positive infinity. *)
Definition nonneg_sf (x : spec_float) : Prop :=
  match x with
  | S754_zero _ | S754_infinity false | S754_finite false _ _ => True
  | _ => False
  end.

(** ** Scenarios *)

Local Set Warnings "-inexact-float".

(** The scenario of the specification: Alice opens a checking account with
    500, Bob a savings account with 1000 at 5%. *)
Definition alice_and_bob : list (@call binary64) :=
  [create_account "aaaaaaaa-0000-4000-8000-000000000001" 1 "checking" "Alice"
     500%float 0.01%float;
   create_account "bbbbbbbb-0000-4000-8000-000000000002" 1 "savings" "Bob"
     1000%float 0.05%float].

Definition alice_and_bob_bank : @Bank binary64 := run str_lower alice_and_bob [].

(** Bob after three withdrawals in the month the account was opened in. *)
Definition bob_at_limit_bank : @Bank binary64 :=
  run str_lower
    [account_withdraw 1 "bbbbbbbb" 10%float "rent";
     account_withdraw 1 "bbbbbbbb" 10%float "food";
     account_withdraw 1 "bbbbbbbb" 10%float "fuel"]
    alice_and_bob_bank.

Definition bob_fields_at_limit : @SavingsFields binary64 :=
  mkSavingsFields 0.05%float 3 3 (Some 1%Z).

Definition bob_at_limit : @Account binary64 :=
  mkAccount "bbbbbbbb" "Bob" 970%float
    [mkTransaction "deposit" 1000%float "Initial deposit";
     mkTransaction "withdrawal" 10%float "rent";
     mkTransaction "withdrawal" 10%float "food";
     mkTransaction "withdrawal" 10%float "fuel"]
    (SavingsAccount bob_fields_at_limit).

(** Alice after the transfer of 200 to Bob. *)
Definition alice_after_transfer : @Account binary64 :=
  mkAccount "aaaaaaaa" "Alice" 300%float
    [mkTransaction "deposit" 500%float "Initial deposit";
     mkTransaction "withdrawal" 200%float "Transfer to account bbbbbbbb"]
    CheckingAccount.



(** An account emptied of an infinite deposit. *)
Definition infinite_deposit : list (@call binary64) :=
  [create_account "eeeeeeee-0000-4000-8000-000000000005" 1 "checking" "Eve"
     0%float 0.01%float;
   account_deposit "eeeeeeee" infinity "cheque";
   account_withdraw 1 "eeeeeeee" infinity "cash"].

(** One large savings balance among unit balances. *)
Definition large_and_small : list (@call binary64) :=
  [create_account "10000000-0000-4000-8000-000000000006" 1 "savings" "Faythe"
     1e16%float 0.01%float;
   create_account "20000000-0000-4000-8000-000000000007" 1 "checking" "Grace"
     1%float 0.01%float;
   create_account "30000000-0000-4000-8000-000000000008" 1 "checking" "Heidi"
     1%float 0.01%float;
   create_account "40000000-0000-4000-8000-000000000009" 1 "savings" "Ivan"
     1%float 0.01%float].

(** The scenario of the specification followed by a transfer, a withdrawal
    and the interest sweep. *)
Definition alice_and_bob_session : list (@call binary64) :=
  alice_and_bob ++
  [transfer 1 "aaaaaaaa" "bbbbbbbb" 200%float;
   account_withdraw 1 "bbbbbbbb" 50%float "rent";
   apply_interest_to_savings_accounts].

(** The same session in exact arithmetic. *)
Definition exact_session : list (@call exact) :=
  [create_account "aaaaaaaa-0000-4000-8000-000000000001" 1 "checking" "Alice"
     (Q2Qc 500) (Q2Qc (1 # 100));
   create_account "bbbbbbbb-0000-4000-8000-000000000002" 1 "savings" "Bob"
     (Q2Qc 1000) (Q2Qc (5 # 100));
   transfer 1 "aaaaaaaa" "bbbbbbbb" (Q2Qc 200);
   account_withdraw 1 "bbbbbbbb" (Q2Qc 50) "rent";
   apply_interest_to_savings_accounts].

(** The builtin [sum] of CPython 3.12 and later on floats: the first item is
    added to the integer 0, the others with Neumaier's compensation, which is
    added at the end unless it is zero or not finite.  Earlier versions add
    from the left, as [py_sum] does. *)
Fixpoint neumaier (xs : list float) (f_result c : float) : float :=
  match xs with
  | [] =>
      if negb (PrimFloat.eqb c 0%float) && is_finite c
      then PrimFloat.add f_result c
      else f_result
  | x :: xs' =>
      let t := PrimFloat.add f_result x in
      neumaier xs' t
        (if PrimFloat.leb (abs x) (abs f_result)
         then PrimFloat.add c (PrimFloat.add (PrimFloat.sub f_result t) x)
         else PrimFloat.add c (PrimFloat.add (PrimFloat.sub x t) f_result))
  end.

Definition py_sum_compensated (xs : list float) : float :=
  match xs with
  | [] => 0%float
  | x :: xs' => neumaier xs' (PrimFloat.add 0%float x) 0%float
  end.

(** ** Further statements *)

Section Further.

Context {N : Number}.

(** What no call changes of an account: its number, its holder, its class
    and, for a savings account, its rate and its limit. *)
Definition same_identity (a a' : Account) : Prop :=
  account_number a' = account_number a /\
  name a' = name a /\
  match class a, class a' with
  | CheckingAccount, CheckingAccount => True
  | SavingsAccount f, SavingsAccount f' =>
      interest_rate f' = interest_rate f /\
      withdrawal_limit f' = withdrawal_limit f
  | _, _ => False
  end.

(** The log of [a'] is the log of [a] with at most one entry appended. *)
Definition appends_at_most_one (a a' : Account) : Prop :=
  exists later,
    transactions a' = transactions a ++ later /\ (length later <= 1)%nat.

(** The log of [a'] starts with the log of [a]. *)
Definition log_extends (a a' : Account) : Prop :=
  exists later, transactions a' = transactions a ++ later.

(** The monthly counter of a savings account is within its limit of 3. *)
Definition counter_within_limit (a : Account) : Prop :=
  match class a with
  | CheckingAccount => True
  | SavingsAccount f =>
      withdrawal_limit f = 3%Z /\ (0 <= withdrawals_this_month f <= 3)%Z
  end.

(** Every account is stored once, under its own number. *)
Definition well_keyed (bank : Bank) : Prop :=
  NoDup (map fst bank) /\
  forall k a, In (k, a) bank -> account_number a = k.

(** The account number a call of [create_account] generates. *)
Definition generated_number (c : call) : option string :=
  match c with
  | create_account uuid _ _ _ _ _ => Some (substring 0 8 uuid)
  | _ => None
  end.

(** A call that creates no account, or generates a number not in use. *)
Definition no_collision (c : call) (bank : Bank) : Prop :=
  match generated_number c with
  | Some k => dict_get k bank = None
  | None => True
  end.

(** A session in which no creation generates a number in use. *)
Fixpoint no_collisions (lower : string -> string) (calls : list call)
    (bank : Bank) : Prop :=
  match calls with
  | [] => True
  | c :: calls' =>
      no_collision c bank /\ no_collisions lower calls' (perform lower c bank)
  end.

(** A predicate on the month a call on an existing account reads from the
    clock. *)
Definition call_months (ok : Z -> Prop) (c : call) : Prop :=
  match c with
  | account_withdraw current_month _ _ _ => ok current_month
  | account_withdrawals_remaining current_month _ => ok current_month
  | transfer current_month _ _ _ => ok current_month
  | _ => True
  end.

(** The number of "withdrawal" entries of the log. *)
Definition withdrawals_logged (a : Account) : Z :=
  Z.of_nat
    (length
       (filter (fun t => (transaction_type t =? "withdrawal")%string)
          (transactions a))).

(** Whether savings account [a'] counted, since [a], exactly the withdrawals
    its log gained, the counts being those of month [current_month]. *)
Definition counts_withdrawals (current_month : Z) (a a' : Account) : Prop :=
  match class a, class a' with
  | SavingsAccount f, SavingsAccount f' =>
      (withdrawals_logged a' - withdrawals_logged a =
       count_after_rollover current_month f' -
       count_after_rollover current_month f)%Z
  | CheckingAccount, CheckingAccount => True
  | _, _ => False
  end.

(** The class of each account, in the bank's order. *)
Definition kinds (bank : Bank) : list bool :=
  map (fun e => isinstance_SavingsAccount (snd e)) bank.

(** [CheckingAccount.get_account_type] and [SavingsAccount.get_account_type],
    as the object's class selects them. *)
Definition get_account_type (self : Account) : string :=
  match class self with
  | CheckingAccount => "Checking"
  | SavingsAccount _ => "Savings"
  end.

(** The lines [SavingsAccount.get_account_summary] adds, by the data they are
    formatted from. *)
Record SavingsDetails : Type := mkSavingsDetails {
  detail_interest_rate : num;
  detail_monthly_withdrawal_limit : Z;
  detail_withdrawals_remaining : Z
}.

(** The text [get_account_summary] returns, by the data its lines are
    formatted from (the creation date is left out, as timestamps are). *)
Record Summary : Type := mkSummary {
  summary_account_type : string;
  summary_account_number : string;
  summary_account_holder : string;
  summary_current_balance : num;
  summary_number_of_transactions : nat;
  summary_savings : option SavingsDetails
}.

(** [Account.get_account_summary] *)
Definition Account_get_account_summary : M Account Summary :=
  bind get (fun self =>
  ret (mkSummary (get_account_type self) (account_number self) (name self)
         (balance self) (length (transactions self)) None)).

(** [SavingsAccount.get_account_summary]: the summary of the base class, then
    the rate, the limit and the property [withdrawals_remaining]. *)
Definition SavingsAccount_get_account_summary (current_month : Z)
    : M Account Summary :=
  bind Account_get_account_summary (fun basic_summary =>
  bind get_savings (fun f =>
  bind (SavingsAccount_withdrawals_remaining current_month) (fun remaining =>
  ret (mkSummary (summary_account_type basic_summary)
         (summary_account_number basic_summary)
         (summary_account_holder basic_summary)
         (summary_current_balance basic_summary)
         (summary_number_of_transactions basic_summary)
         (Some (mkSavingsDetails (interest_rate f) (withdrawal_limit f)
                  remaining)))))).

(** [account.get_account_summary()]: the method the object's class selects. *)
Definition get_account_summary (current_month : Z) : M Account Summary :=
  fun self =>
    match class self with
    | CheckingAccount => Account_get_account_summary self
    | SavingsAccount _ => SavingsAccount_get_account_summary current_month self
    end.

End Further.

(** Subtraction without rounding: it undoes addition, and addition can be
    cancelled. *)
Class ExactSubtraction (N : Number) : Prop := {
  sub_add : forall x y : num, add (sub x y) y = x;
  add_cancel_r : forall x y z : num, add x z = add y z -> x = y
}.

(** ** The console *)

Section Console.

(** What [validation_func(user_input)] does: it returns a value, it raises
    [ValueError] or [TypeError], or it raises another exception. *)
Inductive validation (A E : Type) : Type :=
| Accepts (a : A)
| Rejects
| Fails (e : E).

(** What a call of [get_valid_input] ends with.  [input] raises [EOFError]
    when the standard input is exhausted. *)
Inductive read (A E : Type) : Type :=
| Read (a : A)
| ReadRaised (e : E)
| EOFError.

(** What appears on the terminal. *)
Inductive shown : Type :=
| Prompt (prompt : string)
| Line (text : string).

Record Reading (A E : Type) : Type := mkReading {
  read_result : read A E;
  stdin_left : list string;
  terminal : list shown
}.

Arguments Accepts {A E} a.
Arguments Rejects {A E}.
Arguments Fails {A E} e.
Arguments Read {A E} a.
Arguments ReadRaised {A E} e.
Arguments EOFError {A E}.
Arguments mkReading {A E} read_result stdin_left terminal.
Arguments read_result {A E} r.
Arguments stdin_left {A E} r.
Arguments terminal {A E} r.

(** [get_valid_input], on the lines the standard input still holds.  Each
    turn of its loop reads one line. *)
Fixpoint get_valid_input {A E : Type} (prompt : string)
    (validation_func : string -> validation A E) (error_message : string)
    (stdin : list string) : Reading A E :=
  match stdin with
  | [] => mkReading EOFError [] [Prompt prompt]
  | user_input :: stdin' =>
      match validation_func user_input with
      | Accepts result => mkReading (Read result) stdin' [Prompt prompt]
      | Rejects =>
          let r := get_valid_input prompt validation_func error_message stdin' in
          mkReading (read_result r) (stdin_left r)
            (Prompt prompt :: Line error_message :: terminal r)
      | Fails e => mkReading (ReadRaised e) stdin' [Prompt prompt]
      end
  end.

Context {N : Number}.

(** The value of the validation lambdas of [main]: the number read, or an
    instance of [ValueError] (returned, not raised). *)
Inductive validated : Type :=
| Number_read (x : num)
| ValueError_instance.

(** [lambda x: float(x) if float(x) > 0 else ValueError()], the validation of
    the deposit, withdrawal and transfer amounts.  [float] is Python's
    conversion of a string, [None] where it raises [ValueError]. *)
Definition positive_amount {E : Type} (float : string -> option num) (x : string)
    : validation validated E :=
  match float x with
  | None => Rejects
  | Some v => if ltb zero v then Accepts (Number_read v) else Accepts ValueError_instance
  end.

End Console.

Arguments Accepts {A E} a.
Arguments Rejects {A E}.
Arguments Fails {A E} e.
Arguments Read {A E} a.
Arguments ReadRaised {A E} e.
Arguments EOFError {A E}.
Arguments mkReading {A E} read_result stdin_left terminal.
Arguments read_result {A E} r.
Arguments stdin_left {A E} r.
Arguments terminal {A E} r.

(** ** Further scenarios *)

(** Alice and Bob as the scenario of the specification leaves them. *)
Definition alice : @Account binary64 :=
  mkAccount "aaaaaaaa" "Alice" 500%float
    [mkTransaction "deposit" 500%float "Initial deposit"]
    CheckingAccount.

Definition bob_fields : @SavingsFields binary64 :=
  mkSavingsFields 0.05%float 3 0 (Some 1%Z).

Definition bob : @Account binary64 :=
  mkAccount "bbbbbbbb" "Bob" 1000%float
    [mkTransaction "deposit" 1000%float "Initial deposit"]
    (SavingsAccount bob_fields).

(** The session that takes Bob to his monthly limit. *)
Definition bob_at_limit_session : list (@call binary64) :=
  alice_and_bob ++
  [account_withdraw 1 "bbbbbbbb" 10%float "rent";
   account_withdraw 1 "bbbbbbbb" 10%float "food";
   account_withdraw 1 "bbbbbbbb" 10%float "fuel"].

(** Calls that follow the scenario: Carol opens a savings account, Alice
    transfers 200 to Bob, Bob withdraws 50, interest is applied. *)
Definition later_calls : list (@call binary64) :=
  [create_account "cccccccc-0000-4000-8000-000000000003" 1 "savings" "Carol"
     100%float 0.02%float;
   transfer 1 "aaaaaaaa" "bbbbbbbb" 200%float;
   account_withdraw 1 "bbbbbbbb" 50%float "rent";
   apply_interest_to_savings_accounts].

(** A month of Bob's: two withdrawals, a transfer out, a fourth and a fifth
    attempt, a deposit and the interest sweep. *)
Definition busy_month : list (@call binary64) :=
  [account_withdraw 1 "bbbbbbbb" 10%float "rent";
   account_withdrawals_remaining 1 "bbbbbbbb";
   transfer 1 "bbbbbbbb" "aaaaaaaa" 10%float;
   account_withdraw 1 "bbbbbbbb" 10%float "food";
   account_withdraw 1 "bbbbbbbb" 10%float "fuel";
   transfer 1 "bbbbbbbb" "aaaaaaaa" 10%float;
   account_deposit "bbbbbbbb" 5%float "refund";
   apply_interest_to_savings_accounts].

(** An account whose generated number is the number Alice's account has. *)
Definition mallory : @Account binary64 :=
  mkAccount "aaaaaaaa" "Mallory" 5%float
    [mkTransaction "deposit" 5%float "Initial deposit"]
    (SavingsAccount (mkSavingsFields 0.01%float 3 0 (Some 1%Z))).

(** Alice and Bob in exact arithmetic. *)
Definition exact_bank : @Bank exact :=
  run str_lower
    [create_account "aaaaaaaa-0000-4000-8000-000000000001" 1 "checking" "Alice"
       (Q2Qc 500) (Q2Qc (1 # 100));
     create_account "bbbbbbbb-0000-4000-8000-000000000002" 1 "savings" "Bob"
       (Q2Qc 1000) (Q2Qc (5 # 100))]
    [].

(** One large balance and a unit balance. *)
Definition large_and_one : list (@call binary64) :=
  [create_account "10000000-0000-4000-8000-000000000006" 1 "savings" "Faythe"
     1e16%float 0.01%float;
   create_account "20000000-0000-4000-8000-000000000007" 1 "checking" "Grace"
     1%float 0.01%float].


(** [float] on the lines typed in the console scenario. *)
Definition float_of_typed (x : string) : option float :=
  if (x =? "20")%string then Some 20%float
  else if (x =? "-5")%string then Some (-5)%float
  else if (x =? "0")%string then Some 0%float
  else None.

(** Unfolding of the method-call plumbing. *)
Ltac unfold_calls :=
  unfold withdraw, deposit, SavingsAccount_withdraw, SavingsAccount_apply_interest,
    SavingsAccount_withdrawals_remaining, reset_if_new_month, Account_withdraw,
    Account_deposit, get_savings, try_except, bind, modify, get, print, ret, raise,
    lift_outcome in *.

(** * Properties *)

Section Accounts.

Context {N : Number}.

(** [withdraw] in closed form: the checks in the order the code makes them,
    and the account each one leaves. *)
Lemma withdraw_run (current_month : Z) (amount : num) (description : string)
    (self : Account) :
  withdraw current_month amount description self =
    if limit_reached current_month self then
      mkRun (Raised (MonthlyWithdrawalLimitError
                       (match class self with
                        | SavingsAccount f => withdrawal_limit f
                        | CheckingAccount => 0%Z
                        end)))
            (rolled_over current_month self) []
    else if leb amount zero then
      mkRun (Raised (InvalidAmountError "Withdrawal amount must be positive"))
            (rolled_over current_month self) []
    else if ltb (balance self) amount then
      mkRun (Raised (InsufficientFundsError (balance self)))
            (rolled_over current_month self) []
    else
      mkRun (Returned tt) (withdrawn current_month amount description self)
            [Withdrew amount].
Proof.
  unfold limit_reached, withdrawn, rolled_over, counted.
  destruct self as [k nm b log cls]; destruct cls as [|f]; unfold_calls; cbn.
  - destruct (leb amount zero); cbn; [reflexivity|].
    destruct (ltb b amount); reflexivity.
  - destruct (month_differs (last_withdrawal_month f) current_month); cbn.
    + destruct (0 >=? withdrawal_limit f)%Z; cbn; [reflexivity|].
      destruct (leb amount zero); cbn; [reflexivity|].
      destruct (ltb b amount); reflexivity.
    + destruct (withdrawals_this_month f >=? withdrawal_limit f)%Z; cbn; [reflexivity|].
      destruct (leb amount zero); cbn; [reflexivity|].
      destruct (ltb b amount); reflexivity.
Qed.

(** [deposit] in closed form. *)
Lemma deposit_run (amount : num) (description : string) (self : Account) :
  deposit amount description self =
    if leb amount zero then
      mkRun (Raised (InvalidAmountError "Deposit amount must be positive")) self []
    else mkRun (Returned tt) (deposited amount description self) [Deposited amount].
Proof.
  unfold deposited; unfold_calls.
  destruct (leb amount zero); reflexivity.
Qed.

Lemma balance_rolled_over (current_month : Z) (self : Account) :
  balance (rolled_over current_month self) = balance self.
Proof.
  unfold rolled_over. destruct (class self) as [|f]; [reflexivity|].
  destruct (month_differs _ _); reflexivity.
Qed.

Lemma transactions_rolled_over (current_month : Z) (self : Account) :
  transactions (rolled_over current_month self) = transactions self.
Proof.
  unfold rolled_over. destruct (class self) as [|f]; [reflexivity|].
  destruct (month_differs _ _); reflexivity.
Qed.

Lemma balance_withdrawn (current_month : Z) (amount : num) (description : string)
    (self : Account) :
  balance (withdrawn current_month amount description self) =
    sub (balance self) amount.
Proof.
  unfold withdrawn, counted, rolled_over.
  destruct (class self) as [|f] eqn:E; cbn; rewrite ?E; [reflexivity|].
  destruct (month_differs _ _); cbn; rewrite ?E; reflexivity.
Qed.

Lemma transactions_withdrawn (current_month : Z) (amount : num)
    (description : string) (self : Account) :
  transactions (withdrawn current_month amount description self) =
    transactions self ++ [mkTransaction "withdrawal" amount description].
Proof.
  unfold withdrawn, counted, rolled_over.
  destruct (class self) as [|f] eqn:E; cbn; rewrite ?E; [reflexivity|].
  destruct (month_differs _ _); cbn; rewrite ?E; reflexivity.
Qed.

Lemma month_differs_false (last : option Z) (current_month : Z) :
  month_differs last current_month = false <-> last = Some current_month.
Proof.
  unfold month_differs. destruct last as [m|]; split; intro H; try discriminate.
  - apply negb_false_iff, Z.eqb_eq in H. now subst.
  - injection H as ->. now rewrite Z.eqb_refl.
Qed.



(** The savings attributes after the rollover: the count the check reads, in
    the current month. *)
Lemma class_rolled_over (f : SavingsFields) (current_month : Z) (self : Account) :
  class self = SavingsAccount f ->
  class (rolled_over current_month self) =
    SavingsAccount
      (mkSavingsFields (interest_rate f) (withdrawal_limit f)
         (count_after_rollover current_month f) (Some current_month)).
Proof.
  intro E. unfold rolled_over, count_after_rollover. rewrite E.
  destruct (month_differs _ _) eqn:D; cbn; [reflexivity|].
  apply month_differs_false in D. rewrite E.
  destruct f as [r l c m]; cbn in *. now subst.
Qed.

Lemma class_withdrawn (f : SavingsFields) (current_month : Z) (amount : num)
    (description : string) (self : Account) :
  class self = SavingsAccount f ->
  class (withdrawn current_month amount description self) =
    SavingsAccount
      (mkSavingsFields (interest_rate f) (withdrawal_limit f)
         (count_after_rollover current_month f + 1) (Some current_month)).
Proof.
  intro E. unfold withdrawn, counted.
  cbn [class append_transaction set_balance].
  now rewrite (class_rolled_over f current_month self E).
Qed.

Lemma limit_reached_savings (f : SavingsFields) (current_month : Z) (self : Account) :
  class self = SavingsAccount f ->
  limit_reached current_month self =
    (count_after_rollover current_month f >=? withdrawal_limit f)%Z.
Proof.
  intro E. unfold limit_reached, count_after_rollover. rewrite E.
  now destruct (month_differs _ _).
Qed.


(** C6, amended: [withdraw(amount, description)] on any account.  A savings
    account that has reached its monthly limit fails with
    [MonthlyWithdrawalLimitError] whatever the amount.  Otherwise the call
    fails with [InvalidAmountError] if [amount <= 0], fails with
    [InsufficientFundsError] if [amount > 0] and [amount > balance], and in
    every other case decreases the balance by [amount] and appends exactly one
    "withdrawal" transaction.  Every failure leaves the balance and the
    transaction log unchanged. *)
Theorem withdraw_contract (current_month : Z) (amount : num)
    (description : string) (self : Account) :
  let r := withdraw current_month amount description self in
  if limit_reached current_month self then
    (exists limit, result r = Raised (MonthlyWithdrawalLimitError limit)) /\
    balance (state r) = balance self /\
    transactions (state r) = transactions self
  else if leb amount zero then
    (exists message, result r = Raised (InvalidAmountError message)) /\
    balance (state r) = balance self /\
    transactions (state r) = transactions self
  else if ltb (balance self) amount then
    result r = Raised (InsufficientFundsError (balance self)) /\
    balance (state r) = balance self /\
    transactions (state r) = transactions self
  else
    result r = Returned tt /\
    balance (state r) = sub (balance self) amount /\
    transactions (state r) =
      transactions self ++ [mkTransaction "withdrawal" amount description].
Proof.
  cbv zeta. rewrite withdraw_run.
  destruct (limit_reached current_month self);
    [|destruct (leb amount zero); [|destruct (ltb (balance self) amount)]];
    cbn [result state];
    rewrite ?balance_rolled_over, ?transactions_rolled_over,
      ?balance_withdrawn, ?transactions_withdrawn; eauto.
Qed.


End Accounts.

Section Ledger.

Context {N : Number}.

Lemma dict_get_set (k k' : string) (v : Account) (d : Bank) :
  dict_get k (dict_set k' v d) =
    if (k =? k')%string then Some v else dict_get k d.
Proof.
  induction d as [|[k0 v0] d IH]; cbn.
  - reflexivity.
  - destruct (k' =? k0)%string eqn:E0; cbn.
    + apply String.eqb_eq in E0; subst k0.
      now destruct (k =? k')%string.
    + rewrite IH. destruct (k =? k0)%string eqn:E1; [|reflexivity].
      apply String.eqb_eq in E1; subst k0.
      now rewrite String.eqb_sym, E0.
Qed.

Lemma dict_get_set_same (k : string) (v : Account) (d : Bank) :
  dict_get k (dict_set k v d) = Some v.
Proof. now rewrite dict_get_set, String.eqb_refl. Qed.

Lemma dict_get_set_other (k k' : string) (v : Account) (d : Bank) :
  (k =? k')%string = false ->
  dict_get k (dict_set k' v d) = dict_get k d.
Proof. intro E. now rewrite dict_get_set, E. Qed.

Lemma bind_run {S A B : Type} (m : M S A) (f : A -> M S B) (s : S) :
  bind m f s =
    match result (m s) with
    | Returned a =>
        mkRun (result (f a (state (m s)))) (state (f a (state (m s))))
              (stdout (m s) ++ stdout (f a (state (m s))))
    | Raised e => mkRun (Raised e) (state (m s)) (stdout (m s))
    end.
Proof. reflexivity. Qed.

(** A method call on a stored account, in closed form. *)
Lemma on_account_run {A : Type} (k : string) (m : M Account A) (bank : Bank)
    (self : Account) :
  dict_get k bank = Some self ->
  on_account k m bank =
    mkRun (result (m self)) (dict_set k (state (m self)) bank) (stdout (m self)).
Proof. intro E. unfold on_account. now rewrite E. Qed.

(** [Bank.transfer] in closed form: the checks in the order the code makes
    them, and for each the outcome, the bank it leaves and what it prints. *)
Lemma transfer_run (current_month : Z) (from_account_number to_account_number : string)
    (amount : num) (bank : Bank) :
  Bank_transfer current_month from_account_number to_account_number amount bank =
    match dict_get from_account_number bank, dict_get to_account_number bank with
    | None, _ =>
        mkRun (Raised (ValueError
                         ("Source account " ++ from_account_number ++ " not found")))
              bank []
    | Some _, None =>
        mkRun (Raised (ValueError
                         ("Destination account " ++ to_account_number ++ " not found")))
              bank []
    | Some from_account, Some to_account =>
        if (from_account_number =? to_account_number)%string then
          mkRun (Raised (ValueError "Cannot transfer to the same account")) bank []
        else if leb amount zero then
          mkRun (Raised (InvalidAmountError "Transfer amount must be positive"))
                bank []
        else if ltb (balance from_account) amount then
          mkRun (Raised (InsufficientFundsError (balance from_account))) bank []
        else if limit_reached current_month from_account then
          mkRun (Returned false)
                (dict_set from_account_number
                   (rolled_over current_month from_account) bank)
                [TransferFailed (MonthlyWithdrawalLimitError (limit_of from_account))]
        else
          mkRun (Returned true)
                (dict_set to_account_number
                   (deposited amount ("Transfer from account " ++ from_account_number)
                      to_account)
                   (dict_set from_account_number
                      (withdrawn current_month amount
                         ("Transfer to account " ++ to_account_number) from_account)
                      bank))
                [Withdrew amount; Deposited amount;
                 TransferSucceeded amount from_account_number to_account_number]
    end.
Proof.
  unfold Bank_transfer, Bank_get_account.
  rewrite bind_run. cbn [get result state stdout app].
  destruct (dict_get from_account_number bank) as [a|] eqn:Ea;
    [|reflexivity].
  destruct (dict_get to_account_number bank) as [b|] eqn:Eb; [|reflexivity].
  destruct (from_account_number =? to_account_number)%string eqn:Ek;
    [reflexivity|].
  destruct (leb amount zero) eqn:Hz; [reflexivity|].
  destruct (ltb (balance a) amount) eqn:Hb; [reflexivity|].
  assert (Eb' : forall v, dict_get to_account_number
                            (dict_set from_account_number v bank) = Some b).
  { intro v. rewrite dict_get_set_other; [exact Eb|].
    now rewrite String.eqb_sym. }
  assert (body :
    bind (on_account from_account_number
            (withdraw current_month amount
               ("Transfer to account " ++ to_account_number)))
         (fun _ => on_account to_account_number
            (deposit amount ("Transfer from account " ++ from_account_number)))
         bank =
    if limit_reached current_month a then
      mkRun (Raised (MonthlyWithdrawalLimitError (limit_of a)))
            (dict_set from_account_number (rolled_over current_month a) bank) []
    else
      mkRun (Returned tt)
            (dict_set to_account_number
               (deposited amount ("Transfer from account " ++ from_account_number) b)
               (dict_set from_account_number
                  (withdrawn current_month amount
                     ("Transfer to account " ++ to_account_number) a) bank))
            [Withdrew amount; Deposited amount]).
  { rewrite bind_run, (on_account_run _ _ _ _ Ea), withdraw_run, Hz, Hb.
    destruct (limit_reached current_month a); cbn [result state stdout].
    - reflexivity.
    - rewrite (on_account_run _ _ _ _ (Eb' _)), deposit_run, Hz.
      reflexivity. }
  assert (same : forall (c : bool) (x : M Bank unit), (if c then x else x) = x)
    by (now intros []).
  rewrite same. unfold try_except. rewrite bind_run, body.
  destruct (limit_reached current_month a); reflexivity.
Qed.

Lemma ledger_of_set (k k0 : string) (a a' : Account) (bank : Bank) :
  dict_get k0 bank = Some a ->
  balance a' = balance a ->
  transactions a' = transactions a ->
  ledger_of k (dict_set k0 a' bank) = ledger_of k bank.
Proof.
  intros E Hb Ht. unfold ledger_of. rewrite dict_get_set.
  destruct (k =? k0)%string eqn:Ek; [|reflexivity].
  apply String.eqb_eq in Ek; subst k0. now rewrite E, Hb, Ht.
Qed.

(** C1: transfer atomicity.  If [transfer(A, B, amount)] fails -- it raises
    or returns [False] -- then every account of the bank keeps its balance
    and its transaction log; in particular balance(A) + balance(B) is
    unchanged and nothing was appended to the log of A or of B. *)
Theorem transfer_atomic (current_month : Z)
    (from_account_number to_account_number : string) (amount : num)
    (bank : Bank) :
  let r := Bank_transfer current_month from_account_number to_account_number
             amount bank in
  result r <> Returned true ->
  (forall k, ledger_of k (state r) = ledger_of k bank) /\
  (forall a b,
     dict_get from_account_number bank = Some a ->
     dict_get to_account_number bank = Some b ->
     exists a' b',
       dict_get from_account_number (state r) = Some a' /\
       dict_get to_account_number (state r) = Some b' /\
       add (balance a') (balance b') = add (balance a) (balance b) /\
       transactions a' = transactions a /\
       transactions b' = transactions b).
Proof.
  cbv zeta. intro Hfail.
  assert (L : forall k,
             ledger_of k
               (state (Bank_transfer current_month from_account_number
                         to_account_number amount bank)) = ledger_of k bank).
  { intro k. revert Hfail. rewrite transfer_run.
    destruct (dict_get from_account_number bank) as [a|] eqn:Ea; [|reflexivity].
    destruct (dict_get to_account_number bank) as [b|]; [|reflexivity].
    destruct (from_account_number =? to_account_number)%string; [reflexivity|].
    destruct (leb amount zero); [reflexivity|].
    destruct (ltb (balance a) amount); [reflexivity|].
    destruct (limit_reached current_month a); cbn [result state].
    - intros _. apply (ledger_of_set _ _ a); [exact Ea| |].
      + apply balance_rolled_over.
      + apply transactions_rolled_over.
    - intro H. now contradiction H. }
  split; [exact L|].
  intros a b Ea Eb.
  pose proof (L from_account_number) as La.
  pose proof (L to_account_number) as Lb.
  unfold ledger_of in La, Lb. rewrite Ea in La. rewrite Eb in Lb.
  set (s' := state (Bank_transfer current_month from_account_number
                      to_account_number amount bank)) in *.
  destruct (dict_get from_account_number s') as [a'|]; [|discriminate].
  destruct (dict_get to_account_number s') as [b'|]; [|discriminate].
  injection La as Ha1 Ha2. injection Lb as Hb1 Hb2.
  exists a', b'. rewrite Ha1, Hb1. auto.
Qed.

(** Without rounding, a balance that was debited lies below the old one by
    exactly the amount, and one that was credited above it. *)
Lemma sub_debited {EA : ExactAddition N} {ES : ExactSubtraction N} (x y : num) :
  sub x (sub x y) = y.
Proof.
  apply (add_cancel_r _ _ (sub x y)).
  now rewrite sub_add, add_comm, sub_add.
Qed.

Lemma sub_credited {EA : ExactAddition N} {ES : ExactSubtraction N} (x y : num) :
  sub (add x y) x = y.
Proof.
  apply (add_cancel_r _ _ x). now rewrite sub_add, add_comm.
Qed.

(** C2, amended: transfer conservation.  If [transfer(A, B, amount)]
    succeeds, then A and B are distinct accounts of the bank, the balance of
    A is the old balance minus [amount] and the balance of B the old balance
    plus [amount], as the program's subtraction and addition compute them;
    when additions and subtractions are exact, the balance of A is lower and
    the balance of B higher than before by exactly [amount].  Exactly one
    "withdrawal" transaction was appended to the log of A and exactly one
    "deposit" transaction to the log of B; no other account changed. *)
Theorem transfer_conservation (current_month : Z)
    (from_account_number to_account_number : string) (amount : num)
    (bank : Bank) :
  let r := Bank_transfer current_month from_account_number to_account_number
             amount bank in
  result r = Returned true ->
  from_account_number <> to_account_number /\
  exists a b a' b',
    dict_get from_account_number bank = Some a /\
    dict_get to_account_number bank = Some b /\
    dict_get from_account_number (state r) = Some a' /\
    dict_get to_account_number (state r) = Some b' /\
    balance a' = sub (balance a) amount /\
    balance b' = add (balance b) amount /\
    (ExactAddition N -> ExactSubtraction N ->
     sub (balance a) (balance a') = amount /\
     sub (balance b') (balance b) = amount) /\
    transactions a' =
      transactions a ++
      [mkTransaction "withdrawal" amount
         ("Transfer to account " ++ to_account_number)] /\
    transactions b' =
      transactions b ++
      [mkTransaction "deposit" amount
         ("Transfer from account " ++ from_account_number)] /\
    (forall k, k <> from_account_number -> k <> to_account_number ->
       dict_get k (state r) = dict_get k bank).
Proof.
  cbv zeta. rewrite transfer_run.
  destruct (dict_get from_account_number bank) as [a|] eqn:Ea; [|discriminate].
  destruct (dict_get to_account_number bank) as [b|] eqn:Eb; [|discriminate].
  destruct (from_account_number =? to_account_number)%string eqn:Ek;
    [discriminate|].
  destruct (leb amount zero); [discriminate|].
  destruct (ltb (balance a) amount); [discriminate|].
  destruct (limit_reached current_month a); [discriminate|].
  cbn [result state]. intros _.
  apply String.eqb_neq in Ek. split; [exact Ek|].
  exists a, b,
    (withdrawn current_month amount
       ("Transfer to account " ++ to_account_number) a),
    (deposited amount ("Transfer from account " ++ from_account_number) b).
  split; [reflexivity|]. split; [reflexivity|].
  split.
  { rewrite dict_get_set_other by now apply String.eqb_neq.
    apply dict_get_set_same. }
  split; [apply dict_get_set_same|].
  split; [apply balance_withdrawn|].
  split; [reflexivity|].
  split.
  { intros EA ES. rewrite balance_withdrawn. split.
    - apply sub_debited.
    - apply sub_credited. }
  split; [apply transactions_withdrawn|].
  split; [reflexivity|].
  intros k H1 H2.
  rewrite !dict_get_set_other by now apply String.eqb_neq.
  reflexivity.
Qed.

(** C3, amended: how [transfer] reports a failure.  The four failures found
    by its own checks are raised to the caller: [ValueError] when an account
    is not found or source and destination are the same account,
    [InvalidAmountError] when [amount <= 0], [InsufficientFundsError] when
    [amount] exceeds the source balance.  Past these checks [transfer] never
    raises: a monthly withdrawal limit reached on the source is turned into
    the result [False] and a printed reason, and otherwise the result is
    [True]. *)
Theorem transfer_reports_failure (current_month : Z)
    (from_account_number to_account_number : string) (amount : num)
    (bank : Bank) :
  let r := Bank_transfer current_month from_account_number to_account_number
             amount bank in
  match dict_get from_account_number bank, dict_get to_account_number bank with
  | None, _ =>
      result r =
        Raised (ValueError ("Source account " ++ from_account_number ++ " not found"))
  | Some _, None =>
      result r =
        Raised (ValueError
                  ("Destination account " ++ to_account_number ++ " not found"))
  | Some from_account, Some _ =>
      if (from_account_number =? to_account_number)%string then
        result r = Raised (ValueError "Cannot transfer to the same account")
      else if leb amount zero then
        result r = Raised (InvalidAmountError "Transfer amount must be positive")
      else if ltb (balance from_account) amount then
        result r = Raised (InsufficientFundsError (balance from_account))
      else if limit_reached current_month from_account then
        result r = Returned false /\
        stdout r =
          [TransferFailed (MonthlyWithdrawalLimitError (limit_of from_account))]
      else result r = Returned true
  end.
Proof.
  cbv zeta. rewrite transfer_run.
  destruct (dict_get from_account_number bank) as [a|]; [|reflexivity].
  destruct (dict_get to_account_number bank) as [b|]; [|reflexivity].
  destruct (from_account_number =? to_account_number)%string; [reflexivity|].
  destruct (leb amount zero); [reflexivity|].
  destruct (ltb (balance a) amount); [reflexivity|].
  destruct (limit_reached current_month a); cbn; auto.
Qed.

End Ledger.

Section Sweep.

Context {N : Number}.

(** [SavingsAccount.apply_interest] in closed form. *)
Lemma apply_interest_run (self : Account) :
  isinstance_SavingsAccount self = true ->
  SavingsAccount_apply_interest self =
    mkRun (Returned (interest_amount self)) (credited self) (interest_line self).
Proof.
  unfold isinstance_SavingsAccount, credited, interest_line, interest_amount,
    isinstance_SavingsAccount.
  destruct self as [k nm b log [|f]]; cbn; [discriminate|]. intros _.
  unfold_calls; cbn.
  destruct (ltb zero (mul b (div (interest_rate f) twelve))); reflexivity.
Qed.

Lemma credited_not_savings (self : Account) :
  isinstance_SavingsAccount self = false -> credited self = self.
Proof. intro H. unfold credited. now rewrite H. Qed.

(** The loop of the sweep in closed form, from any running total. *)
Lemma apply_interest_loop_run (entries : Bank) (total_interest : num) :
  apply_interest_loop entries total_interest =
    mkRun
      (Returned
         (fold_left add
            (map interest_amount (filter isinstance_SavingsAccount (values entries)))
            total_interest))
      (map (fun e => (fst e, credited (snd e))) entries)
      (flat_map (fun e => interest_line (snd e)) entries).
Proof.
  revert total_interest.
  induction entries as [|[k a] rest IH]; intro total_interest; cbn.
  - reflexivity.
  - destruct (isinstance_SavingsAccount a) eqn:E.
    + rewrite (apply_interest_run a E). cbn [result state stdout].
      rewrite IH. cbn. reflexivity.
    + rewrite IH. cbn [result state stdout].
      rewrite (credited_not_savings a E).
      unfold interest_line. rewrite E. reflexivity.
Qed.

Lemma dict_get_map_values (f : Account -> Account) (k : string) (bank : Bank) :
  dict_get k (map (fun e => (fst e, f (snd e))) bank) =
    option_map f (dict_get k bank).
Proof.
  induction bank as [|[k0 a] rest IH]; cbn; [reflexivity|].
  destruct (k =? k0)%string; [reflexivity|exact IH].
Qed.

End Sweep.

Section Creation.

Context {N : Number}.
Variable lower : string -> string.

(** [Bank.create_account] in closed form. *)
Lemma create_account_run (uuid : string) (current_month : Z)
    (account_type name : string) (initial_balance interest_rate : num)
    (bank : Bank) :
  Bank_create_account lower uuid current_month account_type name
    initial_balance interest_rate bank =
    if (lower account_type =? "checking")%string then
      if ltb initial_balance zero then
        mkRun (Raised (InvalidAmountError "Initial balance cannot be negative"))
              bank []
      else
        mkRun (Returned (new_account CheckingAccount uuid name initial_balance))
              (dict_set (substring 0 8 uuid)
                 (new_account CheckingAccount uuid name initial_balance) bank)
              []
    else if (lower account_type =? "savings")%string then
      if ltb initial_balance zero then
        mkRun (Raised (InvalidAmountError "Initial balance cannot be negative"))
              bank []
      else
        mkRun (Returned
                 (new_account
                    (SavingsAccount
                       (new_savings current_month initial_balance interest_rate))
                    uuid name initial_balance))
              (dict_set (substring 0 8 uuid)
                 (new_account
                    (SavingsAccount
                       (new_savings current_month initial_balance interest_rate))
                    uuid name initial_balance) bank)
              []
    else
      mkRun (Raised (ValueError
                       "Invalid account type. Choose 'checking' or 'savings'"))
            bank [].
Proof.
  unfold Bank_create_account, CheckingAccount_init, SavingsAccount_init,
    Account_init, new_account, new_savings, initial_log.
  rewrite bind_run.
  destruct (lower account_type =? "checking")%string;
    [|destruct (lower account_type =? "savings")%string];
    unfold lift_outcome, raise; cbn [result state stdout];
    try destruct (ltb initial_balance zero); reflexivity.
Qed.

End Creation.

Section Sessions.

Context {N : Number}.
Variable lower : string -> string.

Lemma withdrawals_remaining_state (current_month : Z) (self : Account) :
  state (SavingsAccount_withdrawals_remaining current_month self) =
    rolled_over current_month self.
Proof.
  unfold rolled_over.
  destruct self as [k nm b log [|f]]; unfold_calls; cbn; [reflexivity|].
  destruct (month_differs (last_withdrawal_month f) current_month); reflexivity.
Qed.

Lemma apply_interest_state (self : Account) :
  state (SavingsAccount_apply_interest self) = credited self.
Proof.
  destruct (isinstance_SavingsAccount self) eqn:E.
  - now rewrite apply_interest_run.
  - rewrite credited_not_savings by exact E.
    unfold isinstance_SavingsAccount in E.
    destruct self as [k nm b log [|f]]; [reflexivity|discriminate].
Qed.

Lemma holds_set (P : string -> Account -> Prop) (k : string) (a : Account)
    (bank : Bank) :
  holds P bank -> P k a -> holds P (dict_set k a bank).
Proof.
  intros H Ha k0 a0. rewrite dict_get_set.
  destruct (k0 =? k)%string eqn:E.
  - apply String.eqb_eq in E; subst k0. now intros [= <-].
  - apply H.
Qed.

Lemma holds_on_account {A : Type} (P : string -> Account -> Prop) (k : string)
    (m : M Account A) (bank : Bank) :
  holds P bank ->
  (forall a, P k a -> P k (state (m a))) ->
  holds P (state (on_account k m bank)).
Proof.
  intros H Hm. unfold on_account.
  destruct (dict_get k bank) as [a|] eqn:E; cbn [state]; [|exact H].
  apply holds_set; [exact H|]. apply Hm, H, E.
Qed.

(** A property of accounts that the account methods keep, for the amounts
    [ok] admits, is kept by every call that creates no account. *)
Section Preservation.

Variable P : string -> Account -> Prop.
Variable ok : num -> Prop.

Hypothesis P_rolled_over :
  forall k current_month a, P k a -> P k (rolled_over current_month a).
Hypothesis P_withdrawn :
  forall k current_month amount description a,
    P k a -> ok amount -> leb amount zero = false ->
    ltb (balance a) amount = false ->
    P k (withdrawn current_month amount description a).
Hypothesis P_deposited :
  forall k amount description a,
    P k a -> ok amount -> leb amount zero = false ->
    P k (deposited amount description a).
Hypothesis P_credited : forall k a, P k a -> P k (credited a).

Lemma P_withdraw (k : string) (current_month : Z) (amount : num)
    (description : string) (a : Account) :
  ok amount -> P k a ->
  P k (state (withdraw current_month amount description a)).
Proof.
  intros Hok Ha. rewrite withdraw_run.
  destruct (limit_reached current_month a); [now apply P_rolled_over|].
  destruct (leb amount zero) eqn:Hz; [now apply P_rolled_over|].
  destruct (ltb (balance a) amount) eqn:Hb; [now apply P_rolled_over|].
  now apply P_withdrawn.
Qed.

Lemma P_deposit (k : string) (amount : num) (description : string)
    (a : Account) :
  ok amount -> P k a -> P k (state (deposit amount description a)).
Proof.
  intros Hok Ha. rewrite deposit_run.
  destruct (leb amount zero) eqn:Hz; [exact Ha|]. now apply P_deposited.
Qed.

Lemma holds_transfer (current_month : Z)
    (from_account_number to_account_number : string) (amount : num)
    (bank : Bank) :
  ok amount -> holds P bank ->
  holds P (state (Bank_transfer current_month from_account_number
                    to_account_number amount bank)).
Proof.
  intros Hok H. rewrite transfer_run.
  destruct (dict_get from_account_number bank) as [a|] eqn:Ea; [|exact H].
  destruct (dict_get to_account_number bank) as [b|] eqn:Eb; [|exact H].
  destruct (from_account_number =? to_account_number)%string; [exact H|].
  destruct (leb amount zero) eqn:Hz; [exact H|].
  destruct (ltb (balance a) amount) eqn:Hb; [exact H|].
  destruct (limit_reached current_month a); cbn [state].
  - apply holds_set; [exact H|]. apply P_rolled_over, H, Ea.
  - apply holds_set; [apply holds_set; [exact H|]|].
    + apply P_withdrawn; auto.
    + apply P_deposited; auto.
Qed.

Lemma holds_sweep (bank : Bank) :
  holds P bank ->
  holds P (state (Bank_apply_interest_to_savings_accounts bank)).
Proof.
  intros H k a. unfold Bank_apply_interest_to_savings_accounts.
  rewrite apply_interest_loop_run. cbn [state].
  rewrite dict_get_map_values.
  destruct (dict_get k bank) as [a0|] eqn:E; [|discriminate].
  intros [= <-]. apply P_credited, H, E.
Qed.

Lemma holds_perform (c : call) (bank : Bank) :
  match c with create_account _ _ _ _ _ _ => False | _ => True end ->
  call_amounts ok c -> holds P bank -> holds P (perform lower c bank).
Proof.
  intros Hc Hok H. destruct c; cbn [perform call_amounts] in *.
  - contradiction.
  - apply holds_on_account; [exact H|]. intros a. now apply P_deposit.
  - apply holds_on_account; [exact H|]. intros a. now apply P_withdraw.
  - apply holds_on_account; [exact H|]. intros a Ha.
    rewrite apply_interest_state. now apply P_credited.
  - apply holds_on_account; [exact H|]. intros a Ha.
    rewrite withdrawals_remaining_state. now apply P_rolled_over.
  - now apply holds_transfer.
  - now apply holds_sweep.
  - exact H.
Qed.

End Preservation.

(** *** The ledger sum *)

Lemma ledger_sum_same (initial_balance : num) (a a' : Account) :
  balance a' = balance a -> transactions a' = transactions a ->
  ledger_sum initial_balance a -> ledger_sum initial_balance a'.
Proof.
  intros Hb Ht (later & Hl & Hs). exists later. now rewrite Hb, Ht.
Qed.

Lemma ledger_sum_append (initial_balance : num) (t : Transaction)
    (a a' : Account) :
  balance a' = apply_transaction (balance a) t ->
  transactions a' = transactions a ++ [t] ->
  ledger_sum initial_balance a -> ledger_sum initial_balance a'.
Proof.
  intros Hb Ht (later & Hl & Hs). exists (later ++ [t]). split.
  - now rewrite Ht, Hl, app_assoc.
  - now rewrite fold_left_app, Hb, Hs.
Qed.

Lemma ledger_sum_new_account (cls : AccountClass) (uuid name : string)
    (initial_balance : num) :
  ledger_sum initial_balance (new_account cls uuid name initial_balance).
Proof. exists []. split; [now rewrite app_nil_r|reflexivity]. Qed.

Lemma ledger_sum_rolled_over (initial_balance : num) (current_month : Z)
    (a : Account) :
  ledger_sum initial_balance a ->
  ledger_sum initial_balance (rolled_over current_month a).
Proof.
  apply ledger_sum_same;
    [apply balance_rolled_over|apply transactions_rolled_over].
Qed.

Lemma ledger_sum_withdrawn (initial_balance : num) (current_month : Z)
    (amount : num) (description : string) (a : Account) :
  ledger_sum initial_balance a ->
  ledger_sum initial_balance (withdrawn current_month amount description a).
Proof.
  apply (ledger_sum_append _ (mkTransaction "withdrawal" amount description));
    [apply balance_withdrawn|apply transactions_withdrawn].
Qed.

Lemma ledger_sum_deposited (initial_balance : num) (amount : num)
    (description : string) (a : Account) :
  ledger_sum initial_balance a ->
  ledger_sum initial_balance (deposited amount description a).
Proof.
  apply (ledger_sum_append _ (mkTransaction "deposit" amount description));
    reflexivity.
Qed.

Lemma ledger_sum_credited (initial_balance : num) (a : Account) :
  ledger_sum initial_balance a -> ledger_sum initial_balance (credited a).
Proof.
  unfold credited.
  destruct (isinstance_SavingsAccount a && ltb zero (interest_amount a));
    [|exact (fun H => H)].
  apply (ledger_sum_append _
           (mkTransaction "interest" (interest_amount a) "Monthly interest"));
    reflexivity.
Qed.

(** Whether [create_account] creates an account does not depend on the bank
    it is called on. *)
Lemma opened_create_account (uuid : string) (current_month : Z)
    (account_type name : string) (initial_balance interest_rate : num)
    (bank : Bank) :
  let c := create_account uuid current_month account_type name
             initial_balance interest_rate in
  (opened lower c = None /\ perform lower c bank = bank) \/
  (exists account,
     opened lower c = Some (substring 0 8 uuid, initial_balance) /\
     perform lower c bank = dict_set (substring 0 8 uuid) account bank /\
     ledger_sum initial_balance account /\
     balance account = initial_balance /\
     ltb initial_balance zero = false).
Proof.
  cbv zeta. unfold opened, perform. rewrite !create_account_run.
  destruct (lower account_type =? "checking")%string;
    [|destruct (lower account_type =? "savings")%string];
    try (destruct (ltb initial_balance zero) eqn:Hneg);
    cbn [result state account_number new_account]; auto;
    right; eexists; repeat split; auto using ledger_sum_new_account.
Qed.

Lemma record_opening_other (g : string -> option num) (c : call) (k : string) :
  opened lower c = None -> record_opening lower g c k = g k.
Proof. intro H. unfold record_opening. now rewrite H. Qed.

Lemma opened_not_create (c : call) :
  match c with create_account _ _ _ _ _ _ => False | _ => True end ->
  opened lower c = None.
Proof. destruct c; (contradiction || reflexivity). Qed.

(** One call keeps the ledger sum of every account, for the initial balances
    on record after it. *)
Lemma ledger_sum_perform (g : string -> option num) (c : call) (bank : Bank) :
  holds (ledger_sum_on_record g) bank ->
  holds (ledger_sum_on_record (record_opening lower g c)) (perform lower c bank).
Proof.
  intro H.
  assert (other :
    match c with create_account _ _ _ _ _ _ => False | _ => True end ->
    holds (ledger_sum_on_record (record_opening lower g c)) (perform lower c bank)).
  { intro Hc.
    assert (H' : holds (ledger_sum_on_record g) (perform lower c bank)).
    { apply (holds_perform (ledger_sum_on_record g) (fun _ => True));
        try assumption.
      - intros k m a (i & Hg & Hs). exists i. auto using ledger_sum_rolled_over.
      - intros k m amt d a (i & Hg & Hs) _ _ _. exists i.
        auto using ledger_sum_withdrawn.
      - intros k amt d a (i & Hg & Hs) _ _. exists i.
        auto using ledger_sum_deposited.
      - intros k a (i & Hg & Hs). exists i. auto using ledger_sum_credited.
      - destruct c; exact I. }
    intros k a E. destruct (H' k a E) as (i & Hg & Hs). exists i.
    rewrite record_opening_other by now apply opened_not_create. auto. }
  destruct c as [uuid cm ty nm ib ir| | | | | | |]; try (apply other; exact I).
  destruct (opened_create_account uuid cm ty nm ib ir bank)
    as [[Ho Hp]|(account & Ho & Hp & Hs & _)]; cbv zeta in *.
  - rewrite Hp. intros k a E. destruct (H k a E) as (i & Hg & Hi).
    exists i. now rewrite record_opening_other.
  - rewrite Hp. intros k a. rewrite dict_get_set.
    unfold ledger_sum_on_record, record_opening. rewrite Ho.
    destruct (k =? substring 0 8 uuid)%string.
    + intros [= <-]. eauto.
    + apply H.
Qed.

Lemma record_openings_cons (g : string -> option num) (c : call)
    (calls : list call) (k : string) :
  record_openings lower g (c :: calls) k =
    record_openings lower (record_opening lower g c) calls k.
Proof.
  unfold record_openings, record_opening. cbn [initial_balance_of].
  destruct (initial_balance_of lower calls k); [reflexivity|].
  destruct (opened lower c) as [[k' b]|]; [|reflexivity].
  now destruct (k =? k')%string.
Qed.

(** A session keeps the ledger sum of every account. *)
Lemma ledger_sum_run (calls : list call) (g : string -> option num)
    (bank : Bank) :
  holds (ledger_sum_on_record g) bank ->
  holds (ledger_sum_on_record (record_openings lower g calls)) (run lower calls bank).
Proof.
  revert g bank. induction calls as [|c calls IH]; intros g bank H.
  - intros k a E. destruct (H k a E) as (i & Hg & Hs). now exists i.
  - cbn [run]. intros k a E.
    destruct (IH _ _ (ledger_sum_perform g c bank H) k a E) as (i & Hg & Hs).
    exists i. now rewrite record_openings_cons.
Qed.

(** C4, amended: the ledger-sum invariant.  After any session of calls of the
    public interface on an empty bank (account creation, deposit, withdrawal,
    transfer, interest, queries), every account of the bank was created with
    a recorded initial balance, its log is the log its constructor left (the
    "Initial deposit" entry when the initial balance is positive) followed by
    the entries logged since, and its balance is the initial balance with
    those later entries applied in order: deposits and interest added,
    withdrawals subtracted, each transfer leg on its own side. *)
Theorem ledger_sum_invariant (calls : list call) (k : string) (account : Account) :
  dict_get k (run lower calls []) = Some account ->
  exists initial_balance later,
    initial_balance_of lower calls k = Some initial_balance /\
    transactions account = initial_log initial_balance ++ later /\
    balance account = fold_left apply_transaction later initial_balance.
Proof.
  intro E.
  assert (H0 : holds (ledger_sum_on_record (fun _ => None)) []).
  { intros k0 a0 E0. discriminate E0. }
  destruct (ledger_sum_run calls _ _ H0 k account E) as (i & Hg & later & Hl & Hs).
  exists i, later. repeat split; try assumption.
  unfold record_openings in Hg.
  destruct (initial_balance_of lower calls k); [exact Hg|discriminate].
Qed.

(** *** Non-negative balances *)

Section NonNegativeBalances.

Context {L : NonNegative N}.

Lemma nonneg_perform (c : call) (bank : Bank) :
  call_amounts finite c ->
  holds (fun _ a => leb zero (balance a) = true) bank ->
  holds (fun _ a => leb zero (balance a) = true) (perform lower c bank).
Proof.
  intros Hc H.
  assert (other :
    match c with create_account _ _ _ _ _ _ => False | _ => True end ->
    holds (fun _ a => leb zero (balance a) = true) (perform lower c bank)).
  { intro Hn.
    apply (holds_perform (fun _ a => leb zero (balance a) = true) finite);
      try assumption.
    - intros _ m a. now rewrite balance_rolled_over.
    - intros _ m amt d a Ha Hf Hz Hb. rewrite balance_withdrawn.
      now apply nonneg_sub.
    - intros _ amt d a Ha Hf Hz. now apply nonneg_add.
    - intros _ a Ha. unfold credited.
      destruct (isinstance_SavingsAccount a); cbn [andb]; [|exact Ha].
      destruct (ltb zero (interest_amount a)) eqn:Hi; [|exact Ha].
      now apply nonneg_add_pos. }
  destruct c as [uuid cm ty nm ib ir| | | | | | |]; try (apply other; exact I).
  destruct (opened_create_account uuid cm ty nm ib ir bank)
    as [[_ Hp]|(account & _ & Hp & _ & Hb & Hneg)]; cbv zeta in *;
    rewrite Hp; [exact H|].
  apply holds_set; [exact H|]. rewrite Hb. now apply nonneg_not_lt.
Qed.

Lemma nonneg_run (calls : list call) (bank : Bank) :
  Forall (call_amounts finite) calls ->
  holds (fun _ a => leb zero (balance a) = true) bank ->
  holds (fun _ a => leb zero (balance a) = true) (run lower calls bank).
Proof.
  intro Hc. revert bank. induction Hc as [|c calls Hc _ IH]; intros bank H.
  - exact H.
  - cbn [run]. apply IH. now apply nonneg_perform.
Qed.

(** C7, amended: balance non-negativity.  Construction rejects a negative
    initial balance with [InvalidAmountError].  When every amount passed to
    the public interface is finite, every account of the bank has a balance
    [>= 0] after any session of creations, deposits, withdrawals, transfers
    and interest applications.  This is proved from the laws [NonNegative],
    which hold for binary64 with the finite floats (neither an infinity nor
    NaN) and for exact numbers, all of them finite. *)
Theorem balance_non_negative :
  (forall cls uuid name initial_balance,
     ltb initial_balance zero = true ->
     Account_init cls uuid name initial_balance =
       Raised (InvalidAmountError "Initial balance cannot be negative")) /\
  (forall calls k account,
     Forall (call_amounts finite) calls ->
     dict_get k (run lower calls []) = Some account ->
     leb zero (balance account) = true).
Proof.
  split.
  - intros cls uuid name initial_balance H. unfold Account_init. now rewrite H.
  - intros calls k account Hc E.
    refine (nonneg_run calls [] Hc _ k account E).
    intros k0 a0 E0. discriminate E0.
Qed.

End NonNegativeBalances.

End Sessions.

Section StatisticsFacts.

Context {N : Number}.

Lemma isinstance_exclusive (a : Account) :
  isinstance_CheckingAccount a = negb (isinstance_SavingsAccount a).
Proof.
  unfold isinstance_CheckingAccount, isinstance_SavingsAccount.
  now destruct (class a).
Qed.

(** Every account is counted once, as a checking or as a savings account. *)
Lemma count_partition (l : list Account) :
  length l =
    (length (filter isinstance_CheckingAccount l) +
     length (filter isinstance_SavingsAccount l))%nat.
Proof.
  induction l as [|a l IH]; cbn [filter length]; [reflexivity|].
  rewrite isinstance_exclusive.
  destruct (isinstance_SavingsAccount a); cbn [negb length]; lia.
Qed.

(** [get_bank_statistics] in closed form: it reads the bank and leaves it as
    it was. *)
Lemma statistics_run (bank : Bank) :
  Bank_get_bank_statistics bank =
    mkRun
      (Returned
         (mkStatistics (length bank)
            (length (filter isinstance_CheckingAccount (values bank)))
            (length (filter isinstance_SavingsAccount (values bank)))
            (py_sum (map balance (values bank)))
            (py_sum (map balance (filter isinstance_CheckingAccount (values bank))))
            (py_sum (map balance (filter isinstance_SavingsAccount (values bank))))))
      bank [].
Proof. reflexivity. Qed.

Section Exact.

Context {E : ExactAddition N}.

Lemma fold_left_add_from (xs : list num) (z : num) :
  fold_left add xs z = add z (fold_left add xs zero).
Proof.
  revert z. induction xs as [|x xs IH]; intro z; cbn [fold_left].
  - now rewrite add_comm, add_zero_l.
  - rewrite (IH (add z x)), (IH (add zero x)), add_zero_l.
    now rewrite add_assoc.
Qed.

Lemma py_sum_cons (x : num) (xs : list num) :
  py_sum (x :: xs) = add x (py_sum xs).
Proof.
  unfold py_sum. cbn [fold_left]. now rewrite fold_left_add_from, add_zero_l.
Qed.

(** Without rounding, the balances of all accounts add up to the checking
    balances plus the savings balances. *)
Lemma balance_partition (l : list Account) :
  py_sum (map balance l) =
    add (py_sum (map balance (filter isinstance_CheckingAccount l)))
        (py_sum (map balance (filter isinstance_SavingsAccount l))).
Proof.
  induction l as [|a l IH]; cbn [filter map].
  - unfold py_sum. cbn. now rewrite add_zero_l.
  - rewrite isinstance_exclusive.
    destruct (isinstance_SavingsAccount a); cbn [negb map];
      rewrite !py_sum_cons, IH.
    + rewrite add_assoc,
        (add_comm (balance a)
           (py_sum (map balance (filter isinstance_CheckingAccount l)))).
      now rewrite <- add_assoc.
    + now rewrite add_assoc.
Qed.

End Exact.

End StatisticsFacts.

(** ** Exact rationals obey the laws *)

Lemma exact_leb_iff (x y : Qc) : @leb exact x y = true <-> (x <= y)%Qc.
Proof. apply Qle_bool_iff. Qed.

Lemma exact_leb_false (x y : Qc) : @leb exact x y = false -> (y < x)%Qc.
Proof.
  intro H. apply Qcnot_le_lt. intro Hle.
  apply exact_leb_iff in Hle. congruence.
Qed.

Lemma exact_ltb_false (x y : Qc) : @ltb exact x y = false -> (y <= x)%Qc.
Proof.
  cbn. intro H. apply negb_false_iff in H. now apply exact_leb_iff.
Qed.

Lemma exact_ltb_true (x y : Qc) : @ltb exact x y = true -> (x < y)%Qc.
Proof.
  cbn. intro H. apply negb_true_iff in H. now apply exact_leb_false.
Qed.

Lemma exact_nonneg_add (b a : Qc) : (0 <= b)%Qc -> (0 <= a)%Qc -> (0 <= b + a)%Qc.
Proof.
  intros Hb Ha. rewrite <- (Qcplus_0_l 0). now apply Qcplus_le_compat.
Qed.

#[export] Instance exact_non_negative : NonNegative exact.
Proof.
  refine {| finite := fun _ => True |}.
  - intros x _ H. apply exact_leb_iff. now apply exact_ltb_false.
  - intros b a Hb _ Ha.
    apply exact_leb_iff. apply exact_leb_iff in Hb.
    apply exact_nonneg_add; [exact Hb|].
    now apply Qclt_le_weak, exact_leb_false.
  - intros b i Hb Hi.
    apply exact_leb_iff. apply exact_leb_iff in Hb.
    apply exact_nonneg_add; [exact Hb|].
    now apply Qclt_le_weak, exact_ltb_true.
  - intros b a Hb _ _ Hba.
    apply exact_leb_iff. apply exact_ltb_false in Hba.
    now apply Qcle_minus_iff in Hba.
Defined.

#[export] Instance exact_addition : ExactAddition exact.
Proof.
  split.
  - exact Qcplus_comm.
  - exact Qcplus_assoc.
  - exact Qcplus_0_l.
Qed.

#[export] Instance exact_subtraction : ExactSubtraction exact.
Proof.
  split.
  - intros x y. cbn. unfold Qcminus.
    now rewrite <- Qcplus_assoc, (Qcplus_comm (- y)), Qcplus_opp_r, Qcplus_0_r.
  - intros x y z H. cbn in H.
    apply (f_equal (fun t => (t + - z)%Qc)) in H.
    now rewrite <- !Qcplus_assoc, Qcplus_opp_r, !Qcplus_0_r in H.
Qed.

(** ** Binary64 obeys the order laws

    From the specification of the primitive floats ([FloatAxioms]): rounding
    keeps the sign of what it rounds, so a sum of non-negative numbers is
    non-negative, and so is a difference [b - a] of valid numbers with
    [a <= b]. *)

Section SignOfRounding.

Variables prec emax : Z.

Lemma iter_pos_invariant {A : Type} (f : A -> A) (P : A -> Prop) :
  (forall x, P x -> P (f x)) -> forall p x, P x -> P (iter_pos f p x).
Proof.
  intro Hf. induction p as [p IH|p IH|]; intros x Hx; cbn; auto.
Qed.

Lemma shr_1_nonneg (mrs : shr_record) :
  (0 <= shr_m mrs)%Z -> (0 <= shr_m (shr_1 mrs))%Z.
Proof.
  destruct mrs as [[|[p|p|]|p] r s]; cbn; lia.
Qed.

Lemma shr_nonneg (mrs : shr_record) (e n : Z) :
  (0 <= shr_m mrs)%Z -> (0 <= shr_m (fst (shr mrs e n)))%Z.
Proof.
  intro H. destruct n as [|p|p]; cbn; try exact H.
  now apply iter_pos_invariant; [apply shr_1_nonneg|].
Qed.

Lemma shr_fexp_nonneg (m e : Z) (l : location) :
  (0 <= m)%Z -> (0 <= shr_m (fst (shr_fexp prec emax m e l)))%Z.
Proof.
  intro H. unfold shr_fexp. apply shr_nonneg.
  destruct l as [|[]]; exact H.
Qed.

Lemma round_nearest_even_nonneg (m : Z) (l : location) :
  (0 <= m)%Z -> (0 <= round_nearest_even m l)%Z.
Proof.
  intro H. destruct l as [|[]]; cbn; try lia.
  destruct (Z.even m); lia.
Qed.

Lemma binary_round_aux_nonneg (mx ex : Z) (lx : location) :
  (0 <= mx)%Z -> nonneg_sf (binary_round_aux prec emax false mx ex lx).
Proof.
  intro H. unfold binary_round_aux.
  pose proof (shr_fexp_nonneg mx ex lx H) as H1.
  destruct (shr_fexp prec emax mx ex lx) as [mrs' e']. cbn [fst] in H1.
  pose proof (shr_fexp_nonneg _ e' loc_Exact
                (round_nearest_even_nonneg _ (loc_of_shr_record mrs') H1)) as H2.
  destruct (shr_fexp prec emax _ e' loc_Exact) as [mrs'' e'']. cbn [fst] in H2.
  destruct (shr_m mrs'') as [|m|m]; [exact I| |lia].
  destruct (Z.leb e'' (emax - prec)); exact I.
Qed.

Lemma binary_normalize_nonneg (m e : Z) :
  (0 <= m)%Z -> nonneg_sf (binary_normalize prec emax m e false).
Proof.
  intro H. destruct m as [|m|m]; [exact I| |lia].
  cbn [binary_normalize]. unfold binary_round.
  destruct (shl_align m e _) as [mz ez].
  apply binary_round_aux_nonneg. lia.
Qed.

Lemma SFadd_nonneg (x y : spec_float) :
  nonneg_sf x -> nonneg_sf y -> nonneg_sf (SFadd prec emax x y).
Proof.
  destruct x as [sx|[]| |[] mx ex]; destruct y as [sy|[]| |[] my ey];
    cbn [nonneg_sf]; try contradiction; intros _ _; try exact I.
  - destruct sx, sy; exact I.
  - cbn [SFadd]. apply binary_normalize_nonneg. cbn [cond_Zopp]. lia.
Qed.


Lemma digits2_pos_bounds (m : positive) :
  (2 ^ (Zpos (digits2_pos m) - 1) <= Zpos m < 2 ^ Zpos (digits2_pos m))%Z.
Proof.
  induction m as [m IH|m IH|]; cbn [digits2_pos].
  - rewrite Pos2Z.inj_succ, Z.pow_succ_r by lia.
    replace (Z.succ (Zpos (digits2_pos m)) - 1)%Z
      with (Z.succ (Zpos (digits2_pos m) - 1)) by lia.
    rewrite Z.pow_succ_r by lia. lia.
  - rewrite Pos2Z.inj_succ, Z.pow_succ_r by lia.
    replace (Z.succ (Zpos (digits2_pos m)) - 1)%Z
      with (Z.succ (Zpos (digits2_pos m) - 1)) by lia.
    rewrite Z.pow_succ_r by lia. lia.
  - cbn. lia.
Qed.

Lemma iter_xO (m d : positive) :
  Zpos (Pos.iter xO m d) = (Zpos m * 2 ^ Zpos d)%Z.
Proof.
  induction d as [|d IH] using Pos.peano_ind.
  - cbn. lia.
  - rewrite Pos.iter_succ, Pos2Z.inj_succ, Z.pow_succ_r by lia.
    rewrite Pos2Z.inj_xO, IH. lia.
Qed.

Lemma shl_align_same (m : positive) (e : Z) : shl_align m e e = (m, e).
Proof. unfold shl_align. now rewrite Z.sub_diag. Qed.

Lemma shl_align_lower (m : positive) (e e' : Z) :
  (e' < e)%Z ->
  Zpos (fst (shl_align m e e')) = (Zpos m * 2 ^ (e - e'))%Z.
Proof.
  intro H. unfold shl_align.
  destruct (e' - e)%Z as [|d|d] eqn:E; try lia.
  cbn [fst]. rewrite iter_xO. f_equal. f_equal. lia.
Qed.

(** Of two valid positive finite numbers, the one with the greater exponent
    has the greater mantissa once both are aligned. *)
Lemma aligned_mantissa_le (mx my : positive) (ex ey : Z) :
  bounded prec emax mx ex = true ->
  bounded prec emax my ey = true ->
  (ey < ex)%Z ->
  (Zpos my <= Zpos mx * 2 ^ (ex - ey))%Z.
Proof.
  unfold bounded, canonical_mantissa, fexp.
  intros Hx Hy Hlt.
  apply andb_true_iff in Hx as [Hx _]. apply andb_true_iff in Hy as [Hy _].
  apply Z.eqb_eq in Hx, Hy.
  assert (Dx : Zpos (digits2_pos mx) = prec) by lia.
  assert (Dy : (Zpos (digits2_pos my) <= prec)%Z) by lia.
  pose proof (digits2_pos_bounds mx) as [Bx _].
  pose proof (digits2_pos_bounds my) as [_ By].
  rewrite Dx in Bx.
  assert (P1 : (2 ^ Zpos (digits2_pos my) <= 2 ^ prec)%Z)
    by (apply Z.pow_le_mono_r; lia).
  assert (P2 : (2 ^ prec = 2 ^ (prec - 1) * 2)%Z).
  { replace prec with (Z.succ (prec - 1)) at 1 by lia.
    rewrite Z.pow_succ_r by lia. lia. }
  assert (P3 : (2 ^ 1 <= 2 ^ (ex - ey))%Z) by (apply Z.pow_le_mono_r; lia).
  change (2 ^ 1)%Z with 2%Z in P3.
  assert (P4 : (0 < 2 ^ (prec - 1))%Z) by (apply Z.pow_pos_nonneg; lia).
  nia.
Qed.

Lemma SFsub_nonneg (x : spec_float) (my : positive) (ey : Z) :
  SpecFloat.valid_binary prec emax x = true ->
  bounded prec emax my ey = true ->
  nonneg_sf x ->
  SFltb x (S754_finite false my ey) = false ->
  nonneg_sf (SFsub prec emax x (S754_finite false my ey)).
Proof.
  intros Vx Vy Nx Hlt.
  destruct x as [sx|[]| |[] mx ex]; cbn [nonneg_sf] in Nx; try contradiction.
  - discriminate Hlt.
  - exact I.
  - cbn [SFsub]. apply binary_normalize_nonneg. cbn [cond_Zopp].
    cbn [SpecFloat.valid_binary] in Vx. unfold SFltb, SFcompare in Hlt.
    destruct (Z.compare ex ey) eqn:C.
    + apply Z.compare_eq in C. subst ey.
      rewrite Z.min_id, !shl_align_same. cbn [fst].
      destruct (Pos.compare_cont Eq mx my) eqn:Cm; try discriminate Hlt.
      * apply Pos.compare_eq in Cm. subst. lia.
      * change (Pos.compare mx my = Gt) in Cm.
        apply Pos.compare_gt_iff in Cm. lia.
    + discriminate Hlt.
    + apply Z.compare_gt_iff in C.
      rewrite Z.min_r by lia. rewrite shl_align_same. cbn [fst].
      rewrite shl_align_lower by exact C.
      pose proof (aligned_mantissa_le mx my ex ey Vx Vy C). lia.
Qed.

End SignOfRounding.

Lemma Prim2SF_zero : Prim2SF 0%float = S754_zero false.
Proof. reflexivity. Qed.

Lemma Prim2SF_infinity : Prim2SF infinity = S754_infinity false.
Proof. reflexivity. Qed.

Lemma leb_zero_iff (x : float) :
  PrimFloat.leb 0 x = true <-> nonneg_sf (Prim2SF x).
Proof.
  rewrite leb_spec, Prim2SF_zero.
  destruct (Prim2SF x) as [s|[]| |[] m e]; cbn; intuition discriminate.
Qed.

Lemma ltb_zero_nonneg (x : float) :
  PrimFloat.ltb 0 x = true -> nonneg_sf (Prim2SF x).
Proof.
  rewrite ltb_spec, Prim2SF_zero.
  destruct (Prim2SF x) as [s|[]| |[] m e]; cbn; intuition discriminate.
Qed.

Lemma finite_not_negative (x : float) :
  is_finite x = true -> PrimFloat.ltb x 0 = false -> nonneg_sf (Prim2SF x).
Proof.
  unfold is_finite, is_nan, is_infinity.
  rewrite !eqb_spec, abs_spec, ltb_spec, Prim2SF_zero, Prim2SF_infinity.
  destruct (Prim2SF x) as [s|[]| |[] m e]; cbn; intuition discriminate.
Qed.

Lemma finite_positive (x : float) :
  is_finite x = true -> PrimFloat.leb x 0 = false ->
  exists m e, Prim2SF x = S754_finite false m e.
Proof.
  unfold is_finite, is_nan, is_infinity.
  rewrite !eqb_spec, abs_spec, leb_spec, Prim2SF_zero, Prim2SF_infinity.
  destruct (Prim2SF x) as [s|[]| |[] m e]; cbn; try discriminate; eauto.
Qed.

#[export] Instance binary64_non_negative : NonNegative binary64.
Proof.
  refine {| finite := fun x : float => is_finite x = true |}.
  - intros x Hf H. apply leb_zero_iff. now apply finite_not_negative.
  - intros b a Hb Hf Ha. apply leb_zero_iff.
    change (nonneg_sf (Prim2SF (PrimFloat.add b a))).
    rewrite add_spec. apply SFadd_nonneg; [now apply leb_zero_iff|].
    destruct (finite_positive a Hf Ha) as (m & e & ->). exact I.
  - intros b i Hb Hi. apply leb_zero_iff.
    change (nonneg_sf (Prim2SF (PrimFloat.add b i))).
    rewrite add_spec.
    apply SFadd_nonneg; [now apply leb_zero_iff|now apply ltb_zero_nonneg].
  - intros b a Hb Hf Ha Hba. apply leb_zero_iff.
    change (nonneg_sf (Prim2SF (PrimFloat.sub b a))).
    rewrite sub_spec.
    destruct (finite_positive a Hf Ha) as (m & e & E).
    pose proof (Prim2SF_valid a) as Va. rewrite E in Va.
    change (PrimFloat.ltb b a = false) in Hba. rewrite ltb_spec, E in Hba.
    rewrite E. apply SFsub_nonneg; try assumption.
    + apply Prim2SF_valid.
    + now apply leb_zero_iff.
Defined.

(** * The remaining claims *)

Section SweepFacts.

Context {N : Number}.






End SweepFacts.


(** C9: account creation.  [create_account(kind, name, initial_balance,
    interest_rate)] lower-cases [kind]; when the result is neither "checking"
    nor "savings" it raises [ValueError] (the specification's
    InvalidAccountKind) and leaves the bank as it was, as it does for
    "crypto".  Otherwise it constructs the matching account: a negative
    initial balance raises [InvalidAmountError] and leaves the bank as it
    was; else the new account is stored under its newly generated number
    (the first eight characters of a fresh UUID) and returned. *)
Theorem create_account_contract :
  (forall (N : Number) (lower : string -> string) (uuid : string)
          (current_month : Z) (account_type holder : string)
          (initial_balance interest_rate : num) (bank : @Bank N),
     let r := Bank_create_account lower uuid current_month account_type holder
                initial_balance interest_rate bank in
     let k := substring 0 8 uuid in
     let created (cls : AccountClass) :=
       exists account,
         result r = Returned account /\
         state r = dict_set k account bank /\
         dict_get k (state r) = Some account /\
         account_number account = k /\
         name account = holder /\
         balance account = initial_balance /\
         transactions account =
           (if ltb zero initial_balance
            then [mkTransaction "deposit" initial_balance "Initial deposit"]
            else []) /\
         class account = cls in
     let rejected :=
       r = mkRun (Raised (InvalidAmountError "Initial balance cannot be negative"))
                 bank [] in
     if (lower account_type =? "checking")%string then
       if ltb initial_balance zero then rejected else created CheckingAccount
     else if (lower account_type =? "savings")%string then
       if ltb initial_balance zero then rejected
       else created
              (SavingsAccount
                 (mkSavingsFields interest_rate 3 0
                    (if ltb zero initial_balance then Some current_month
                     else None)))
     else
       r = mkRun (Raised (ValueError
                            "Invalid account type. Choose 'checking' or 'savings'"))
                 bank []) /\
  (forall (uuid : string) (current_month : Z) (bank : @Bank binary64),
     Bank_create_account str_lower uuid current_month "crypto" "X"
       0%float 0%float bank =
       mkRun (Raised (ValueError
                        "Invalid account type. Choose 'checking' or 'savings'"))
             bank []).
Proof.
  split.
  - intros N lower uuid current_month account_type holder initial_balance
      interest_rate bank. cbv zeta.
    rewrite create_account_run.
    destruct (lower account_type =? "checking")%string;
      [|destruct (lower account_type =? "savings")%string];
      try destruct (ltb initial_balance zero); try reflexivity;
      eexists; cbn [result state];
      (split; [reflexivity|]); (split; [reflexivity|]);
      (split; [apply dict_get_set_same|]); repeat split.
  - intros uuid current_month bank. now rewrite create_account_run.
Qed.

(** C10, amended: the statistics.  [get_bank_statistics] returns its record
    and leaves the bank as it was; the record satisfies
    [total_accounts = checking_accounts + savings_accounts]; and when
    addition is exact (associative, commutative, with 0 neutral) it satisfies
    [total_balance = checking_balance + savings_balance]. *)
Theorem statistics_partition (N : Number) (bank : @Bank N) :
  let r := Bank_get_bank_statistics bank in
  exists s,
    result r = Returned s /\
    state r = bank /\
    total_accounts s = (checking_accounts s + savings_accounts s)%nat /\
    (ExactAddition N ->
     total_balance s = add (checking_balance s) (savings_balance s)).
Proof.
  cbv zeta. rewrite statistics_run. eexists. cbn [result state].
  split; [reflexivity|]. split; [reflexivity|].
  cbn [total_accounts checking_accounts savings_accounts total_balance
       checking_balance savings_balance].
  split.
  - unfold values. rewrite <- (length_map snd bank). apply count_partition.
  - intro E. apply balance_partition.
Qed.

(** * Counterexamples and instances *)

(** The scenarios evaluate to the accounts named above. *)
Lemma bob_at_limit_stored :
  dict_get "bbbbbbbb" bob_at_limit_bank = Some bob_at_limit.
Proof. vm_compute. reflexivity. Qed.

(** C1, instance: Bob has made three withdrawals this month; his transfer to
    Alice is refused, and nothing changes. *)
Lemma transfer_atomic_witness :
  result (Bank_transfer 1 "bbbbbbbb" "aaaaaaaa" 100%float bob_at_limit_bank)
    = Returned false /\
  (forall k,
     ledger_of k
       (state (Bank_transfer 1 "bbbbbbbb" "aaaaaaaa" 100%float bob_at_limit_bank))
     = ledger_of k bob_at_limit_bank).
Proof.
  split; [vm_compute; reflexivity|].
  apply (transfer_atomic 1 "bbbbbbbb" "aaaaaaaa" 100%float bob_at_limit_bank).
  vm_compute. discriminate.
Defined.

(** C2, counterexample: Faythe holds 1e16 and transfers 1 to Grace.  The
    transfer succeeds; 1e16 - 1 rounds back to 1e16, so Faythe's balance is
    what it was and not lower by 1, while Grace's balance is higher by 1. *)
Lemma transfer_leaves_large_balance :
  ~ transfer_conservation_as_stated 1 "10000000" "20000000" 1%float
      (run str_lower large_and_one []).
Proof.
  intro H. destruct H as (a & b & a' & b' & Ea & Eb & Ea' & Eb' & Ha & Hb);
    [vm_compute; reflexivity|].
  vm_compute in Ea, Ea'. injection Ea as <-. injection Ea' as <-.
  apply (f_equal (fun x => PrimFloat.eqb x 1%float)) in Ha.
  vm_compute in Ha. discriminate Ha.
Qed.

(** C2, instance: the scenario of the specification.  Alice transfers 200 to
    Bob; in binary64 her balance goes from 500 to 300 and his from 1000 to
    1200; in exact arithmetic her balance is lower and his higher by exactly
    200. *)
Lemma transfer_conservation_witness :
  (result (Bank_transfer 1 "aaaaaaaa" "bbbbbbbb" 200%float alice_and_bob_bank)
     = Returned true /\
   exists a' b',
     dict_get "aaaaaaaa"
       (state (Bank_transfer 1 "aaaaaaaa" "bbbbbbbb" 200%float alice_and_bob_bank))
       = Some a' /\
     dict_get "bbbbbbbb"
       (state (Bank_transfer 1 "aaaaaaaa" "bbbbbbbb" 200%float alice_and_bob_bank))
       = Some b' /\
     balance a' = 300%float /\
     balance b' = 1200%float /\
     a' = alice_after_transfer) /\
  (let r := Bank_transfer 1 "aaaaaaaa" "bbbbbbbb" (Q2Qc 200) exact_bank in
   result r = Returned true /\
   exists a b a' b',
     dict_get "aaaaaaaa" exact_bank = Some a /\
     dict_get "bbbbbbbb" exact_bank = Some b /\
     dict_get "aaaaaaaa" (state r) = Some a' /\
     dict_get "bbbbbbbb" (state r) = Some b' /\
     @sub exact (balance a) (balance a') = Q2Qc 200 /\
     @sub exact (balance b') (balance b) = Q2Qc 200).
Proof.
  split.
  - split; [vm_compute; reflexivity|].
    destruct (transfer_conservation 1 "aaaaaaaa" "bbbbbbbb" 200%float
                alice_and_bob_bank)
      as (_ & a & b & a' & b' & Ea & Eb & Ea' & Eb' & Ha & Hb & _);
      [vm_compute; reflexivity|].
    exists a', b'. split; [exact Ea'|]. split; [exact Eb'|].
    vm_compute in Ea, Eb. injection Ea as <-. injection Eb as <-.
    split; [rewrite Ha; vm_compute; reflexivity|].
    split; [rewrite Hb; vm_compute; reflexivity|].
    vm_compute in Ea'. now injection Ea' as <-.
  - cbv zeta. split; [vm_compute; reflexivity|].
    destruct (@transfer_conservation exact 1 "aaaaaaaa" "bbbbbbbb" (Q2Qc 200)
                exact_bank)
      as (_ & a & b & a' & b' & Ea & Eb & Ea' & Eb' & _ & _ & Hx & _);
      [vm_compute; reflexivity|].
    exists a, b, a', b'.
    split; [exact Ea|]. split; [exact Eb|].
    split; [exact Ea'|]. split; [exact Eb'|].
    exact (Hx exact_addition exact_subtraction).
Defined.

(** C3, counterexample: Alice has 500; transferring 600 to Bob raises
    [InsufficientFundsError] instead of returning a boolean. *)
Lemma transfer_raises_insufficient_funds :
  ~ transfer_returns_boolean 1 "aaaaaaaa" "bbbbbbbb" 600%float alice_and_bob_bank.
Proof.
  intros [b H]. vm_compute in H. discriminate H.
Qed.

(** C4, counterexample: right after Alice's account is created with 500, its
    balance is 500, while the initial balance plus the entries of the whole
    log is 500 + 500. *)
Lemma ledger_sum_counts_initial_deposit_twice :
  ~ ledger_sum_as_stated str_lower alice_and_bob.
Proof.
  intro H.
  specialize (H "aaaaaaaa" _ 500%float eq_refl eq_refl).
  unfold ledger_sum_whole_log in H.
  apply (f_equal (fun x => PrimFloat.eqb x 500%float)) in H.
  vm_compute in H. discriminate H.
Qed.

(** C4, instance: Alice's account after the transfer of the scenario. *)
Lemma ledger_sum_invariant_witness :
  dict_get "aaaaaaaa"
    (run str_lower (alice_and_bob ++ [transfer 1 "aaaaaaaa" "bbbbbbbb" 200%float]) [])
    = Some alice_after_transfer /\
  exists initial_balance later,
    initial_balance_of str_lower
      (alice_and_bob ++ [transfer 1 "aaaaaaaa" "bbbbbbbb" 200%float]) "aaaaaaaa"
      = Some initial_balance /\
    transactions alice_after_transfer = initial_log initial_balance ++ later /\
    balance alice_after_transfer =
      fold_left apply_transaction later initial_balance.
Proof.
  split; [vm_compute; reflexivity|].
  apply (ledger_sum_invariant str_lower
           (alice_and_bob ++ [transfer 1 "aaaaaaaa" "bbbbbbbb" 200%float])
           "aaaaaaaa").
  vm_compute. reflexivity.
Defined.



(** C6, counterexample: Bob is at his monthly limit; withdrawing -5 fails
    with [MonthlyWithdrawalLimitError], not with [InvalidAmountError]. *)
Lemma withdraw_at_limit_reports_the_limit :
  ~ withdraw_contract_as_stated 1 (-5)%float "" bob_at_limit.
Proof.
  intros (H & _). destruct H as ((message & H) & _); [reflexivity|].
  vm_compute in H. discriminate H.
Qed.

(** C7, counterexample: Eve deposits an infinite amount and withdraws it; her
    balance is then NaN, which is not [>= 0]. *)
Lemma infinite_withdrawal_leaves_nan :
  ~ balance_non_negative_as_stated str_lower infinite_deposit.
Proof.
  intro H. specialize (H "eeeeeeee" _ eq_refl).
  vm_compute in H. discriminate H.
Qed.

(** C7, instance: in binary64 Bob's balance stays non-negative through the
    session of the scenario, whose amounts are all finite. *)
Lemma balance_non_negative_witness :
  Forall (call_amounts (@finite binary64 binary64_non_negative))
    alice_and_bob_session /\
  exists account,
    dict_get "bbbbbbbb" (run str_lower alice_and_bob_session []) = Some account /\
    PrimFloat.leb 0 (balance account) = true.
Proof.
  split; [repeat constructor|].
  destruct (dict_get "bbbbbbbb" (run str_lower alice_and_bob_session []))
    as [account|] eqn:E; [|vm_compute in E; discriminate E].
  exists account. split; [reflexivity|].
  apply (proj2 (@balance_non_negative binary64 str_lower binary64_non_negative)
           alice_and_bob_session "bbbbbbbb" account);
    [repeat constructor|exact E].
Defined.

(** The same in exact arithmetic. *)
Lemma balance_non_negative_exact :
  exists account,
    dict_get "bbbbbbbb" (run str_lower exact_session []) = Some account /\
    @leb exact zero (balance account) = true.
Proof.
  destruct (dict_get "bbbbbbbb" (run str_lower exact_session [])) as [account|]
    eqn:E; [|vm_compute in E; discriminate E].
  exists account. split; [reflexivity|].
  refine (@nonneg_run exact str_lower exact_non_negative exact_session [] _ _
            "bbbbbbbb" account E).
  - repeat constructor.
  - intros k a H. discriminate H.
Qed.


(** C10, counterexample: one savings balance of 1e16 among three balances of
    1.  Added in the order of the bank the total is 1e16, each 1 being lost to
    rounding; the checking balances add up to 2 and the savings balances to
    1e16, and 2 + 1e16 is 10000000000000002. *)
Lemma statistics_partition_rounds :
  ~ statistics_partition_as_stated (run str_lower large_and_small []).
Proof.
  intro H. destruct (H _ eq_refl) as (_ & H2).
  apply (f_equal (fun x => PrimFloat.eqb x 1e16%float)) in H2.
  vm_compute in H2. discriminate H2.
Qed.

(** C10, instance: the statistics of the exact session. *)
Lemma statistics_partition_witness :
  exists s,
    result (Bank_get_bank_statistics (run str_lower exact_session [])) = Returned s /\
    @total_balance exact s = @add exact (checking_balance s) (savings_balance s) /\
    total_accounts s = 2%nat.
Proof.
  destruct (statistics_partition exact (run str_lower exact_session []))
    as (s & R & _ & _ & Hb).
  exists s. split; [exact R|]. split; [exact (Hb exact_addition)|].
  vm_compute in R. injection R as <-. reflexivity.
Defined.

(** The same bank under the compensated [sum] of CPython 3.12 and later: the
    total is 10000000000000004, and checking plus savings is still
    10000000000000002. *)
Lemma statistics_partition_rounds_compensated :
  let accounts := values (run str_lower large_and_small []) in
  let total_balance := py_sum_compensated (map balance accounts) in
  let checking_balance :=
    py_sum_compensated (map balance (filter isinstance_CheckingAccount accounts)) in
  let savings_balance :=
    py_sum_compensated (map balance (filter isinstance_SavingsAccount accounts)) in
  total_balance = 10000000000000004%float /\
  PrimFloat.add checking_balance savings_balance = 10000000000000002%float /\
  total_balance <> PrimFloat.add checking_balance savings_balance.
Proof.
  cbv zeta. split; [vm_compute; reflexivity|].
  split; [vm_compute; reflexivity|].
  intro H. apply (f_equal (fun x => PrimFloat.eqb x 10000000000000004%float)) in H.
  vm_compute in H. discriminate H.
Qed.

(** * Further properties of the ledger *)

Section Related.

Context {N : Number}.
Variable lower : string -> string.

(** A relation between an account before and after a call, kept by each way
    a call can change an account, for the months [month_ok] admits. *)
Variable month_ok : Z -> Prop.
Variable R : Account -> Account -> Prop.

Hypothesis R_refl : forall a, R a a.
Hypothesis R_rolled_over :
  forall current_month a, month_ok current_month -> R a (rolled_over current_month a).
Hypothesis R_withdrawn :
  forall current_month amount description a,
    month_ok current_month ->
    limit_reached current_month a = false ->
    leb amount zero = false ->
    ltb (balance a) amount = false ->
    R a (withdrawn current_month amount description a).
Hypothesis R_deposited :
  forall amount description a,
    leb amount zero = false -> R a (deposited amount description a).
Hypothesis R_credited : forall a, R a (credited a).

Lemma related_withdraw (current_month : Z) (amount : num) (description : string)
    (a : Account) :
  month_ok current_month ->
  R a (state (withdraw current_month amount description a)).
Proof.
  intro Hm. rewrite withdraw_run.
  destruct (limit_reached current_month a) eqn:Hl; [now apply R_rolled_over|].
  destruct (leb amount zero) eqn:Hz; [now apply R_rolled_over|].
  destruct (ltb (balance a) amount) eqn:Hb; [now apply R_rolled_over|].
  now apply R_withdrawn.
Qed.

Lemma related_deposit (amount : num) (description : string) (a : Account) :
  R a (state (deposit amount description a)).
Proof.
  rewrite deposit_run.
  destruct (leb amount zero) eqn:Hz; [apply R_refl|]. now apply R_deposited.
Qed.

Lemma related_on_account {A : Type} (k k0 : string) (m : M Account A)
    (bank : Bank) (a : Account) :
  (forall a0, R a0 (state (m a0))) ->
  dict_get k0 bank = Some a ->
  exists a', dict_get k0 (state (on_account k m bank)) = Some a' /\ R a a'.
Proof.
  intros Hm E. unfold on_account.
  destruct (dict_get k bank) as [self|] eqn:Ek; cbn [state]; [|eauto].
  rewrite dict_get_set. destruct (k0 =? k)%string eqn:E0; [|eauto].
  apply String.eqb_eq in E0; subst k0.
  rewrite Ek in E. injection E as <-. eauto.
Qed.

Lemma related_transfer (current_month : Z)
    (from_account_number to_account_number : string) (amount : num)
    (bank : Bank) (k0 : string) (a : Account) :
  month_ok current_month ->
  dict_get k0 bank = Some a ->
  exists a',
    dict_get k0
      (state (Bank_transfer current_month from_account_number
                to_account_number amount bank)) = Some a' /\
    R a a'.
Proof.
  intros Hm E. rewrite transfer_run.
  destruct (dict_get from_account_number bank) as [x|] eqn:Ex; [|eauto].
  destruct (dict_get to_account_number bank) as [y|] eqn:Ey; [|eauto].
  destruct (from_account_number =? to_account_number)%string eqn:Ek; [eauto|].
  destruct (leb amount zero) eqn:Hz; [eauto|].
  destruct (ltb (balance x) amount) eqn:Hb; [eauto|].
  destruct (limit_reached current_month x) eqn:Hl; cbn [state].
  - rewrite dict_get_set. destruct (k0 =? from_account_number)%string eqn:E0;
      [|eauto].
    apply String.eqb_eq in E0; subst k0. rewrite Ex in E. injection E as <-.
    eauto.
  - rewrite !dict_get_set.
    destruct (k0 =? to_account_number)%string eqn:E1.
    + apply String.eqb_eq in E1; subst k0. rewrite Ey in E. injection E as <-.
      eauto.
    + destruct (k0 =? from_account_number)%string eqn:E0; [|eauto].
      apply String.eqb_eq in E0; subst k0. rewrite Ex in E. injection E as <-.
      eauto.
Qed.

Lemma related_sweep (bank : Bank) (k0 : string) (a : Account) :
  dict_get k0 bank = Some a ->
  exists a',
    dict_get k0 (state (Bank_apply_interest_to_savings_accounts bank)) = Some a' /\
    R a a'.
Proof.
  intro E. unfold Bank_apply_interest_to_savings_accounts.
  rewrite apply_interest_loop_run. cbn [state].
  rewrite dict_get_map_values, E. cbn [option_map]. eauto.
Qed.

(** Creation leaves every account stored under another number as it was. *)
Lemma create_account_other (uuid : string) (current_month : Z)
    (account_type holder : string) (initial_balance interest_rate : num)
    (bank : Bank) (k0 : string) :
  k0 <> substring 0 8 uuid ->
  dict_get k0
    (state (Bank_create_account lower uuid current_month account_type holder
              initial_balance interest_rate bank)) = dict_get k0 bank.
Proof.
  intro H. apply String.eqb_neq in H. rewrite create_account_run.
  destruct (lower account_type =? "checking")%string;
    [|destruct (lower account_type =? "savings")%string];
    try destruct (ltb initial_balance zero); cbn [state];
    rewrite ?dict_get_set, ?H; reflexivity.
Qed.

(** Every call relates each account to the account it leaves under the same
    number, unless it creates an account under a number in use. *)
Lemma related_perform (c : call) (bank : Bank) (k0 : string) (a : Account) :
  no_collision c bank ->
  call_months month_ok c ->
  dict_get k0 bank = Some a ->
  exists a', dict_get k0 (perform lower c bank) = Some a' /\ R a a'.
Proof.
  intros Hc Hm E.
  destruct c as [uuid cm ty nm ib ir|k amt d|cm k amt d|k|cm k|cm kf kt amt| |];
    cbn [perform call_months] in *.
  - exists a. split; [|apply R_refl].
    rewrite create_account_other; [exact E|].
    unfold no_collision in Hc. cbn [generated_number] in Hc.
    intros ->. congruence.
  - apply related_on_account; [|exact E]. intro a0. apply related_deposit.
  - apply related_on_account; [|exact E]. intro a0. now apply related_withdraw.
  - apply related_on_account; [|exact E]. intro a0.
    rewrite apply_interest_state. apply R_credited.
  - apply related_on_account; [|exact E]. intro a0.
    rewrite withdrawals_remaining_state. now apply R_rolled_over.
  - now apply related_transfer.
  - now apply related_sweep.
  - exists a. split; [exact E|apply R_refl].
Qed.

(** A transitive relation is kept along a session. *)
Hypothesis R_trans : forall a b c, R a b -> R b c -> R a c.

Lemma related_run (calls : list call) (bank : Bank) (k0 : string) (a : Account) :
  no_collisions lower calls bank ->
  Forall (call_months month_ok) calls ->
  dict_get k0 bank = Some a ->
  exists a', dict_get k0 (run lower calls bank) = Some a' /\ R a a'.
Proof.
  revert bank a. induction calls as [|c calls IH]; intros bank a Hc Hm E.
  - exists a. split; [exact E|apply R_refl].
  - cbn [run no_collisions] in *. destruct Hc as [Hc Hcs].
    inversion Hm as [|? ? Hm1 Hm2]; subst.
    destruct (related_perform c bank k0 a Hc Hm1 E) as (a1 & E1 & R1).
    destruct (IH _ a1 Hcs Hm2 E1) as (a' & E' & R').
    exists a'. split; [exact E'|]. eapply R_trans; eassumption.
Qed.

End Related.

(** ** The methods of an account *)

Section AccountMethods.

Context {N : Number}.

(** X1: [Account.deposit].  An amount [<= 0] raises [InvalidAmountError],
    prints nothing and leaves the account as it was.  Any other amount is
    added to the balance and logged as one "deposit" entry; the number, the
    holder and the class of the account stay, so a deposit into a savings
    account is never refused for the monthly limit and never counts against
    it. *)
Theorem deposit_contract (amount : num) (description : string) (self : Account) :
  let r := deposit amount description self in
  if leb amount zero then
    r = mkRun (Raised (InvalidAmountError "Deposit amount must be positive"))
              self []
  else
    result r = Returned tt /\
    stdout r = [Deposited amount] /\
    balance (state r) = add (balance self) amount /\
    transactions (state r) =
      transactions self ++ [mkTransaction "deposit" amount description] /\
    account_number (state r) = account_number self /\
    name (state r) = name self /\
    class (state r) = class self.
Proof.
  cbv zeta. rewrite deposit_run.
  destruct (leb amount zero); [reflexivity|].
  cbn. repeat split; reflexivity.
Qed.

Lemma initial_log_later (initial_balance : num) (later later' : list Transaction) :
  initial_log initial_balance ++ later = initial_log initial_balance ++ later' ->
  later = later'.
Proof. apply app_inv_head. Qed.

(** X2: [Account.add_transaction_record] never fails and prints nothing; it
    appends one entry to the log and leaves the balance as it was.  On an
    account whose balance follows from its log, the balance still follows
    from the log afterwards exactly when the entry is one that has no effect
    on a running balance. *)
Theorem add_transaction_record_contract (transaction_type : string)
    (amount : num) (description : string) (initial_balance : num)
    (self : Account) :
  let t := mkTransaction transaction_type amount description in
  let r := Account_add_transaction_record transaction_type amount description
             self in
  result r = Returned tt /\
  stdout r = [] /\
  balance (state r) = balance self /\
  transactions (state r) = transactions self ++ [t] /\
  class (state r) = class self /\
  (ledger_sum initial_balance self ->
   (ledger_sum initial_balance (state r) <->
    apply_transaction (balance self) t = balance self)).
Proof.
  cbv zeta. unfold Account_add_transaction_record, modify. cbn [result state stdout].
  repeat (split; [reflexivity|]).
  intros (later & Hl & Hs). unfold ledger_sum.
  cbn [transactions balance append_transaction]. split.
  - intros (later' & Hl' & Hs'). rewrite Hl, <- app_assoc in Hl'.
    apply initial_log_later in Hl'. subst later'.
    rewrite fold_left_app in Hs'. cbn [fold_left] in Hs'.
    rewrite <- Hs in Hs'. now symmetry.
  - intro H. eexists. rewrite Hl, <- app_assoc. split; [reflexivity|].
    rewrite fold_left_app. cbn [fold_left]. rewrite <- Hs. now symmetry.
Qed.

Lemma rolled_over_twice (current_month : Z) (self : Account) :
  rolled_over current_month (rolled_over current_month self) =
    rolled_over current_month self.
Proof.
  unfold rolled_over. destruct (class self) as [|f] eqn:E; rewrite ?E; [reflexivity|].
  destruct (month_differs (last_withdrawal_month f) current_month) eqn:D.
  - cbn. unfold month_differs. now rewrite Z.eqb_refl.
  - now rewrite E, D.
Qed.

(** [SavingsAccount.withdrawals_remaining] in closed form. *)
Lemma withdrawals_remaining_run (f : SavingsFields) (current_month : Z)
    (self : Account) :
  class self = SavingsAccount f ->
  SavingsAccount_withdrawals_remaining current_month self =
    mkRun (Returned (withdrawal_limit f - count_after_rollover current_month f)%Z)
          (rolled_over current_month self) [].
Proof.
  intro E. unfold rolled_over, count_after_rollover.
  destruct self as [k nm b log cls]. cbn in E. subst cls.
  unfold_calls; cbn.
  destruct (month_differs (last_withdrawal_month f) current_month); reflexivity.
Qed.

(** X3: the property [SavingsAccount.withdrawals_remaining].  It returns the
    limit minus the withdrawals counted in the current month -- the whole
    limit in a month other than the one last observed -- and, although it is
    a property, it writes to the account: it performs the month rollover.  It
    prints nothing, leaves the balance and the log as they were, and read a
    second time in the same month it returns the same number and changes
    nothing more. *)
Theorem withdrawals_remaining_contract (f : SavingsFields) (current_month : Z)
    (self : Account) :
  class self = SavingsAccount f ->
  let r := SavingsAccount_withdrawals_remaining current_month self in
  result r =
    Returned (withdrawal_limit f - count_after_rollover current_month f)%Z /\
  state r = rolled_over current_month self /\
  stdout r = [] /\
  balance (state r) = balance self /\
  transactions (state r) = transactions self /\
  class (state r) =
    SavingsAccount
      (mkSavingsFields (interest_rate f) (withdrawal_limit f)
         (count_after_rollover current_month f) (Some current_month)) /\
  SavingsAccount_withdrawals_remaining current_month (state r) =
    mkRun (result r) (state r) [].
Proof.
  intro E. cbv zeta. rewrite (withdrawals_remaining_run f _ _ E).
  cbn [result state stdout].
  rewrite balance_rolled_over, transactions_rolled_over,
    (class_rolled_over f _ _ E).
  repeat (split; [reflexivity|]).
  rewrite (withdrawals_remaining_run _ _ _ (class_rolled_over f _ _ E)).
  cbn [interest_rate withdrawal_limit]. rewrite rolled_over_twice.
  unfold count_after_rollover at 1. cbn [last_withdrawal_month withdrawals_this_month].
  unfold month_differs. now rewrite Z.eqb_refl.
Qed.

Lemma limit_reached_rolled_over (current_month : Z) (self : Account) :
  limit_reached current_month (rolled_over current_month self) =
    limit_reached current_month self.
Proof.
  unfold limit_reached, rolled_over.
  destruct (class self) as [|f] eqn:E; rewrite ?E; [reflexivity|].
  destruct (month_differs (last_withdrawal_month f) current_month) eqn:D.
  - cbn. unfold month_differs. rewrite Z.eqb_refl. cbn. reflexivity.
  - now rewrite E, D.
Qed.

(** X4: reading [withdrawals_remaining] before a withdrawal of the same
    month, as the account menu does each time it is shown, does not change
    what [withdraw] then does: same outcome, same account afterwards, same
    line printed. *)
Theorem withdrawals_remaining_then_withdraw (current_month : Z) (amount : num)
    (description : string) (self : Account) :
  withdraw current_month amount description
    (state (SavingsAccount_withdrawals_remaining current_month self)) =
  withdraw current_month amount description self.
Proof.
  rewrite withdrawals_remaining_state.
  destruct (class self) as [|f] eqn:E.
  - unfold rolled_over. now rewrite E.
  - rewrite !withdraw_run.
    rewrite limit_reached_rolled_over, rolled_over_twice, balance_rolled_over.
    unfold withdrawn. rewrite rolled_over_twice, balance_rolled_over.
    rewrite (class_rolled_over f _ _ E), E. reflexivity.
Qed.

Lemma get_savings_run (f : SavingsFields) (self : Account) :
  class self = SavingsAccount f -> get_savings self = mkRun (Returned f) self [].
Proof. intro E. unfold get_savings. now rewrite E. Qed.

Lemma basic_summary_run (self : Account) :
  Account_get_account_summary self =
    mkRun (Returned
             (mkSummary (get_account_type self) (account_number self) (name self)
                (balance self) (length (transactions self)) None))
          self [].
Proof. reflexivity. Qed.

(** [SavingsAccount.get_account_summary] in closed form. *)
Lemma savings_summary_run (f : SavingsFields) (current_month : Z)
    (self : Account) :
  class self = SavingsAccount f ->
  SavingsAccount_get_account_summary current_month self =
    mkRun (Returned
             (mkSummary (get_account_type self) (account_number self) (name self)
                (balance self) (length (transactions self))
                (Some (mkSavingsDetails (interest_rate f) (withdrawal_limit f)
                         (withdrawal_limit f -
                          count_after_rollover current_month f)%Z))))
          (rolled_over current_month self) [].
Proof.
  intro E. unfold SavingsAccount_get_account_summary.
  rewrite bind_run, basic_summary_run. cbn [result state stdout].
  rewrite bind_run, (get_savings_run f self E). cbn [result state stdout].
  rewrite bind_run, (withdrawals_remaining_run f _ _ E).
  cbn [result state stdout]. reflexivity.
Qed.

(** X5: [get_account_summary].  The summary reports the account's number,
    holder, balance and the length of its log, and never changes the balance
    or the log.  On a checking account it changes nothing at all.  On a
    savings account it reports the withdrawals remaining after the month
    rollover, and performs that rollover on the account: asking for the
    summary in a new month resets the monthly count. *)
Theorem get_account_summary_contract (current_month : Z) (self : Account) :
  let r := get_account_summary current_month self in
  exists summary,
    result r = Returned summary /\
    stdout r = [] /\
    summary_account_type summary = get_account_type self /\
    summary_account_number summary = account_number self /\
    summary_account_holder summary = name self /\
    summary_current_balance summary = balance self /\
    summary_number_of_transactions summary = length (transactions self) /\
    state r = rolled_over current_month self /\
    balance (state r) = balance self /\
    transactions (state r) = transactions self /\
    match class self with
    | CheckingAccount => summary_savings summary = None /\ state r = self
    | SavingsAccount f =>
        summary_savings summary =
          Some (mkSavingsDetails (interest_rate f) (withdrawal_limit f)
                  (withdrawal_limit f - count_after_rollover current_month f))
    end.
Proof.
  cbv zeta. unfold get_account_summary.
  destruct (class self) as [|f] eqn:E.
  - rewrite basic_summary_run. eexists. cbn [result state stdout].
    unfold rolled_over. rewrite E.
    repeat (split; [reflexivity|]). split; reflexivity.
  - rewrite (savings_summary_run f _ _ E). eexists. cbn [result state stdout].
    rewrite balance_rolled_over, transactions_rolled_over.
    repeat (split; [reflexivity|]). reflexivity.
Qed.

End AccountMethods.

(** ** What every call keeps *)

Section Kept.

Context {N : Number}.
Variable lower : string -> string.

(** A property of accounts that the constructors establish and each way a
    call can change an account keeps, holds throughout a session. *)
Variable P : string -> Account -> Prop.

Hypothesis P_new_checking :
  forall uuid holder initial_balance,
    ltb initial_balance zero = false ->
    P (substring 0 8 uuid) (new_account CheckingAccount uuid holder initial_balance).
Hypothesis P_new_savings :
  forall uuid current_month holder initial_balance interest_rate,
    ltb initial_balance zero = false ->
    P (substring 0 8 uuid)
      (new_account
         (SavingsAccount (new_savings current_month initial_balance interest_rate))
         uuid holder initial_balance).
Hypothesis P_rolled_over :
  forall k current_month a, P k a -> P k (rolled_over current_month a).
Hypothesis P_withdrawn :
  forall k current_month amount description a,
    P k a ->
    limit_reached current_month a = false ->
    leb amount zero = false ->
    ltb (balance a) amount = false ->
    P k (withdrawn current_month amount description a).
Hypothesis P_deposited :
  forall k amount description a,
    P k a -> leb amount zero = false -> P k (deposited amount description a).
Hypothesis P_credited : forall k a, P k a -> P k (credited a).

Lemma kept_withdraw (k : string) (current_month : Z) (amount : num)
    (description : string) (a : Account) :
  P k a -> P k (state (withdraw current_month amount description a)).
Proof.
  intro Ha. rewrite withdraw_run.
  destruct (limit_reached current_month a) eqn:Hl; [now apply P_rolled_over|].
  destruct (leb amount zero) eqn:Hz; [now apply P_rolled_over|].
  destruct (ltb (balance a) amount) eqn:Hb; [now apply P_rolled_over|].
  now apply P_withdrawn.
Qed.

Lemma kept_deposit (k : string) (amount : num) (description : string)
    (a : Account) :
  P k a -> P k (state (deposit amount description a)).
Proof.
  intro Ha. rewrite deposit_run.
  destruct (leb amount zero) eqn:Hz; [exact Ha|]. now apply P_deposited.
Qed.

Lemma kept_create_account (uuid : string) (current_month : Z)
    (account_type holder : string) (initial_balance interest_rate : num)
    (bank : Bank) :
  holds P bank ->
  holds P (state (Bank_create_account lower uuid current_month account_type
                    holder initial_balance interest_rate bank)).
Proof.
  intro H. rewrite create_account_run.
  destruct (lower account_type =? "checking")%string;
    [|destruct (lower account_type =? "savings")%string];
    try destruct (ltb initial_balance zero) eqn:Hb; cbn [state];
    try exact H; apply holds_set; auto.
Qed.

Lemma kept_transfer (current_month : Z)
    (from_account_number to_account_number : string) (amount : num)
    (bank : Bank) :
  holds P bank ->
  holds P (state (Bank_transfer current_month from_account_number
                    to_account_number amount bank)).
Proof.
  intro H. rewrite transfer_run.
  destruct (dict_get from_account_number bank) as [a|] eqn:Ea; [|exact H].
  destruct (dict_get to_account_number bank) as [b|] eqn:Eb; [|exact H].
  destruct (from_account_number =? to_account_number)%string; [exact H|].
  destruct (leb amount zero) eqn:Hz; [exact H|].
  destruct (ltb (balance a) amount) eqn:Hb; [exact H|].
  destruct (limit_reached current_month a) eqn:Hl; cbn [state].
  - apply holds_set; [exact H|]. apply P_rolled_over, H, Ea.
  - apply holds_set; [apply holds_set; [exact H|]|].
    + apply P_withdrawn; auto.
    + apply P_deposited; auto.
Qed.

Lemma kept_sweep (bank : Bank) :
  holds P bank ->
  holds P (state (Bank_apply_interest_to_savings_accounts bank)).
Proof.
  intros H k a. unfold Bank_apply_interest_to_savings_accounts.
  rewrite apply_interest_loop_run. cbn [state].
  rewrite dict_get_map_values.
  destruct (dict_get k bank) as [a0|] eqn:E; [|discriminate].
  intros [= <-]. apply P_credited, H, E.
Qed.

Lemma kept_perform (c : call) (bank : Bank) :
  holds P bank -> holds P (perform lower c bank).
Proof.
  intro H. destruct c; cbn [perform].
  - now apply kept_create_account.
  - apply holds_on_account; [exact H|]. intros a. apply kept_deposit.
  - apply holds_on_account; [exact H|]. intros a. apply kept_withdraw.
  - apply holds_on_account; [exact H|]. intros a Ha.
    rewrite apply_interest_state. now apply P_credited.
  - apply holds_on_account; [exact H|]. intros a Ha.
    rewrite withdrawals_remaining_state. now apply P_rolled_over.
  - now apply kept_transfer.
  - now apply kept_sweep.
  - exact H.
Qed.

Lemma kept_run (calls : list call) (bank : Bank) :
  holds P bank -> holds P (run lower calls bank).
Proof.
  revert bank. induction calls as [|c calls IH]; intros bank H; [exact H|].
  cbn [run]. apply IH, kept_perform, H.
Qed.

Lemma kept_from_empty (calls : list call) : holds P (run lower calls []).
Proof. apply kept_run. intros k a. discriminate. Qed.

End Kept.

Section Counter.

Context {N : Number}.

Lemma counter_rolled_over (current_month : Z) (a : Account) :
  counter_within_limit a -> counter_within_limit (rolled_over current_month a).
Proof.
  unfold counter_within_limit, rolled_over.
  destruct (class a) as [|f] eqn:E; rewrite ?E; [auto|].
  destruct (month_differs _ _); cbn; rewrite ?E; [lia|auto].
Qed.

Lemma class_withdrawn_checking (current_month : Z) (amount : num)
    (description : string) (a : Account) :
  class a = CheckingAccount ->
  class (withdrawn current_month amount description a) = CheckingAccount.
Proof.
  intro E. unfold withdrawn, rolled_over. rewrite E. unfold counted.
  cbn [class append_transaction set_balance]. now rewrite E.
Qed.

Lemma counter_withdrawn (current_month : Z) (amount : num) (description : string)
    (a : Account) :
  counter_within_limit a ->
  limit_reached current_month a = false ->
  counter_within_limit (withdrawn current_month amount description a).
Proof.
  unfold counter_within_limit. destruct (class a) as [|f] eqn:E.
  - intros _ _. now rewrite class_withdrawn_checking.
  - intros [Hl Hc] Hr. rewrite (class_withdrawn f _ _ _ _ E).
    cbn [withdrawal_limit withdrawals_this_month].
    rewrite (limit_reached_savings f _ _ E), Z.geb_leb in Hr.
    apply Z.leb_gt in Hr. unfold count_after_rollover in *.
    destruct (month_differs _ _); lia.
Qed.

Lemma counter_credited (a : Account) :
  counter_within_limit a -> counter_within_limit (credited a).
Proof.
  unfold credited. destruct (_ && _); [|auto]. intro H. exact H.
Qed.

(** The counter invariant holds throughout every session. *)
Lemma counter_kept (lower : string -> string) (calls : list call) (bank : Bank) :
  holds (fun _ => counter_within_limit) bank ->
  holds (fun _ => counter_within_limit) (run lower calls bank).
Proof.
  apply kept_run.
  - intros. exact I.
  - intros. unfold counter_within_limit. cbn. lia.
  - intros k cm a. apply counter_rolled_over.
  - intros k cm amount d a Ha Hl _ _. now apply counter_withdrawn.
  - intros k amount d a Ha _. exact Ha.
  - intros k a. apply counter_credited.
Qed.

Lemma counter_from_empty (lower : string -> string) (calls : list call) :
  holds (fun _ => counter_within_limit) (run lower calls []).
Proof. apply counter_kept. intros k a. discriminate. Qed.

(** X6: the monthly counter.  After any session that starts with an empty
    bank, every savings account has the withdrawal limit 3 and a monthly
    count between 0 and 3, and its property [withdrawals_remaining], read in
    any month, is a number between 0 and 3. *)
Theorem monthly_counter_within_limit (lower : string -> string)
    (calls : list call) (k : string) (account : Account) (f : SavingsFields)
    (current_month : Z) :
  dict_get k (run lower calls []) = Some account ->
  class account = SavingsAccount f ->
  withdrawal_limit f = 3%Z /\
  (0 <= withdrawals_this_month f <= 3)%Z /\
  exists remaining,
    result (SavingsAccount_withdrawals_remaining current_month account) =
      Returned remaining /\
    (0 <= remaining <= 3)%Z.
Proof.
  intros E C. pose proof (counter_from_empty lower calls k account E) as H.
  unfold counter_within_limit in H. rewrite C in H. destruct H as [Hl Hc].
  split; [exact Hl|]. split; [exact Hc|].
  rewrite (withdrawals_remaining_run f _ _ C). cbn [result].
  eexists. split; [reflexivity|].
  unfold count_after_rollover. destruct (month_differs _ _); lia.
Qed.

Lemma dict_set_same (k : string) (a : Account) (bank : Bank) :
  dict_get k bank = Some a -> dict_set k a bank = bank.
Proof.
  induction bank as [|[k0 a0] bank IH]; cbn; [discriminate|].
  destruct (k =? k0)%string eqn:E.
  - apply String.eqb_eq in E. subst k0. now intros [= ->].
  - intro H. now rewrite IH.
Qed.

Lemma limit_reached_same_month (current_month : Z) (a : Account) :
  counter_within_limit a ->
  limit_reached current_month a = true ->
  rolled_over current_month a = a.
Proof.
  unfold counter_within_limit, limit_reached, rolled_over.
  destruct (class a) as [|f]; [reflexivity|]. intros [Hl _].
  destruct (month_differs _ _); [|reflexivity].
  rewrite Hl. discriminate.
Qed.

Lemma failed_transfer_state (current_month : Z)
    (from_account_number to_account_number : string) (amount : num)
    (bank : Bank) :
  holds (fun _ => counter_within_limit) bank ->
  result (Bank_transfer current_month from_account_number to_account_number
            amount bank) <> Returned true ->
  state (Bank_transfer current_month from_account_number to_account_number
           amount bank) = bank.
Proof.
  intros H. rewrite transfer_run.
  destruct (dict_get from_account_number bank) as [a|] eqn:Ea; [|reflexivity].
  destruct (dict_get to_account_number bank) as [b|] eqn:Eb; [|reflexivity].
  destruct (from_account_number =? to_account_number)%string; [reflexivity|].
  destruct (leb amount zero); [reflexivity|].
  destruct (ltb (balance a) amount); [reflexivity|].
  destruct (limit_reached current_month a) eqn:Hl; cbn [result state].
  - intros _. rewrite (limit_reached_same_month _ _ (H _ _ Ea) Hl).
    now apply dict_set_same.
  - intro F. now contradiction F.
Qed.

(** X7: a transfer that fails changes nothing at all.  In a bank reached by
    any session from the empty bank, when [transfer] raises or returns
    [False] the bank afterwards is the bank before: no balance, no log and no
    monthly counter has changed. *)
Theorem failed_transfer_changes_nothing (lower : string -> string)
    (calls : list call) (current_month : Z)
    (from_account_number to_account_number : string) (amount : num) :
  let bank := run lower calls [] in
  let r := Bank_transfer current_month from_account_number to_account_number
             amount bank in
  result r <> Returned true -> state r = bank.
Proof.
  cbv zeta. apply failed_transfer_state, counter_from_empty.
Qed.

(** X8: a transfer counts as a withdrawal.  When [transfer] succeeds from a
    savings account, the monthly count of that account (after the month
    rollover) was below its limit and is one higher afterwards, in the
    current month; the class of the destination, and with it its own monthly
    count, is unchanged. *)
Theorem transfer_counts_as_withdrawal (current_month : Z)
    (from_account_number to_account_number : string) (amount : num)
    (bank : Bank) (from_account : Account) (f : SavingsFields) :
  let r := Bank_transfer current_month from_account_number to_account_number
             amount bank in
  dict_get from_account_number bank = Some from_account ->
  class from_account = SavingsAccount f ->
  result r = Returned true ->
  (count_after_rollover current_month f < withdrawal_limit f)%Z /\
  (exists from_account',
     dict_get from_account_number (state r) = Some from_account' /\
     class from_account' =
       SavingsAccount
         (mkSavingsFields (interest_rate f) (withdrawal_limit f)
            (count_after_rollover current_month f + 1) (Some current_month))) /\
  (exists to_account to_account',
     dict_get to_account_number bank = Some to_account /\
     dict_get to_account_number (state r) = Some to_account' /\
     class to_account' = class to_account).
Proof.
  cbv zeta. intros Ea C. rewrite transfer_run, Ea.
  destruct (dict_get to_account_number bank) as [b|] eqn:Eb; [|discriminate].
  destruct (from_account_number =? to_account_number)%string eqn:Ek;
    [discriminate|].
  destruct (leb amount zero); [discriminate|].
  destruct (ltb (balance from_account) amount); [discriminate|].
  destruct (limit_reached current_month from_account) eqn:Hl;
    [discriminate|]. cbn [result state]. intros _.
  rewrite (limit_reached_savings f _ _ C), Z.geb_leb in Hl.
  apply Z.leb_gt in Hl. split; [exact Hl|]. split.
  - eexists. rewrite dict_get_set_other by exact Ek.
    rewrite dict_get_set_same. split; [reflexivity|].
    apply class_withdrawn, C.
  - exists b. eexists. split; [reflexivity|].
    rewrite dict_get_set_same. split; reflexivity.
Qed.

End Counter.

(** ** Accounts persist *)

Section Persistence.

Context {N : Number}.
Variable lower : string -> string.

Lemma isinstance_rolled_over (current_month : Z) (a : Account) :
  isinstance_SavingsAccount (rolled_over current_month a) =
    isinstance_SavingsAccount a.
Proof.
  unfold isinstance_SavingsAccount, rolled_over.
  destruct (class a) as [|f] eqn:E; rewrite ?E; [reflexivity|].
  destruct (month_differs _ _); cbn; rewrite ?E; reflexivity.
Qed.

Lemma same_identity_refl (a : Account) : same_identity a a.
Proof.
  unfold same_identity. destruct (class a); auto.
Qed.

Lemma same_identity_trans (a b c : Account) :
  same_identity a b -> same_identity b c -> same_identity a c.
Proof.
  unfold same_identity. intros (H1 & H2 & H3) (H4 & H5 & H6).
  split; [congruence|]. split; [congruence|].
  destruct (class a), (class b), (class c); try tauto.
  destruct H3, H6. split; congruence.
Qed.

Lemma same_identity_rolled_over (current_month : Z) (a : Account) :
  same_identity a (rolled_over current_month a).
Proof.
  unfold same_identity, rolled_over.
  destruct (class a) as [|f] eqn:E; rewrite ?E; [auto|].
  destruct (month_differs _ _); cbn; rewrite ?E; auto.
Qed.

Lemma same_identity_withdrawn (current_month : Z) (amount : num)
    (description : string) (a : Account) :
  same_identity a (withdrawn current_month amount description a).
Proof.
  unfold same_identity. destruct (class a) as [|f] eqn:E.
  - rewrite (class_withdrawn_checking _ _ _ _ E).
    unfold withdrawn, counted, rolled_over. rewrite E.
    cbn [class append_transaction set_balance]. rewrite E. cbn. auto.
  - rewrite (class_withdrawn f _ _ _ _ E). cbn [interest_rate withdrawal_limit].
    unfold withdrawn, counted. cbn [class append_transaction set_balance].
    rewrite (class_rolled_over f _ _ E). cbn.
    unfold rolled_over. rewrite E.
    destruct (month_differs _ _); cbn; auto.
Qed.

Lemma same_identity_deposited (amount : num) (description : string)
    (a : Account) :
  same_identity a (deposited amount description a).
Proof.
  unfold same_identity, deposited. cbn. destruct (class a); auto.
Qed.

Lemma same_identity_credited (a : Account) : same_identity a (credited a).
Proof.
  unfold credited. destruct (_ && _); [|apply same_identity_refl].
  unfold same_identity. cbn. destruct (class a); auto.
Qed.

Lemma transactions_credited (a : Account) :
  exists later,
    transactions (credited a) = transactions a ++ later /\ (length later <= 1)%nat.
Proof.
  unfold credited. destruct (_ && _); cbn.
  - eexists. split; [reflexivity|]. cbn. lia.
  - exists []. rewrite app_nil_r. split; [reflexivity|]. cbn. lia.
Qed.

Lemma log_extends_trans (a b c : Account) :
  log_extends a b -> log_extends b c -> log_extends a c.
Proof.
  intros (l1 & H1) (l2 & H2). exists (l1 ++ l2).
  now rewrite H2, H1, app_assoc.
Qed.

Lemma months_unconstrained (calls : list call) :
  Forall (call_months (fun _ => True)) calls.
Proof.
  induction calls as [|c calls IH]; constructor; [|exact IH].
  destruct c; exact I.
Qed.

(** X9: accounts persist.  Through any session in which no creation
    generates a number already in use, an account of the bank stays in the
    bank under its number, with the same number, holder and class (and, for
    a savings account, the same rate and limit), and its log afterwards
    starts with its log before: no entry is removed or rewritten. *)
Theorem accounts_persist (calls : list call) (bank : Bank) (k : string)
    (account : Account) :
  no_collisions lower calls bank ->
  dict_get k bank = Some account ->
  exists account',
    dict_get k (run lower calls bank) = Some account' /\
    same_identity account account' /\
    exists later, transactions account' = transactions account ++ later.
Proof.
  intros Hc.
  apply (related_run lower (fun _ => True)
           (fun x y => same_identity x y /\ log_extends x y)).
  - intro x. split; [apply same_identity_refl|]. exists []. now rewrite app_nil_r.
  - intros cm x _. split; [apply same_identity_rolled_over|].
    exists []. now rewrite transactions_rolled_over, app_nil_r.
  - intros cm amount d x _ _ _ _. split; [apply same_identity_withdrawn|].
    eexists. now rewrite transactions_withdrawn.
  - intros amount d x _. split; [apply same_identity_deposited|].
    eexists. reflexivity.
  - intro x. split; [apply same_identity_credited|].
    destruct (transactions_credited x) as (l & H & _). now exists l.
  - intros x y z [H1 H2] [H3 H4]. split.
    + eapply same_identity_trans; eassumption.
    + eapply log_extends_trans; eassumption.
  - exact Hc.
  - apply months_unconstrained.
Qed.

(** X10: one entry per call.  A call that does not create an account under a
    number in use leaves each account in the bank, with its log extended by
    at most one entry; a transfer extends two logs by one entry each, the
    interest sweep as many logs as it credits accounts. *)
Theorem one_entry_per_call (c : call) (bank : Bank) (k : string)
    (account : Account) :
  no_collision c bank ->
  dict_get k bank = Some account ->
  exists account' later,
    dict_get k (perform lower c bank) = Some account' /\
    transactions account' = transactions account ++ later /\
    (length later <= 1)%nat.
Proof.
  intros Hc E.
  assert (H : exists a',
            dict_get k (perform lower c bank) = Some a' /\
            appends_at_most_one account a').
  { revert E.
    apply (related_perform lower (fun _ => True) appends_at_most_one);
      unfold appends_at_most_one.
    - intro x. exists []. rewrite app_nil_r. split; [reflexivity|]. cbn. lia.
    - intros cm x _. exists []. rewrite transactions_rolled_over, app_nil_r.
      split; [reflexivity|]. cbn. lia.
    - intros cm amount d x _ _ _ _. eexists. rewrite transactions_withdrawn.
      split; [reflexivity|]. cbn. lia.
    - intros amount d x _. eexists. split; [reflexivity|]. cbn. lia.
    - apply transactions_credited.
    - exact Hc.
    - destruct c; exact I. }
  destruct H as (a' & E' & later & Hl & Hn). now exists a', later.
Qed.

(** *** The account numbers of the bank *)

Lemma keys_dict_set (k : string) (v : Account) (d : Bank) :
  map fst (dict_set k v d) =
    match dict_get k d with
    | Some _ => map fst d
    | None => map fst d ++ [k]
    end.
Proof.
  induction d as [|[k0 v0] d IH]; cbn; [reflexivity|].
  destruct (k =? k0)%string eqn:E; cbn.
  - apply String.eqb_eq in E. now subst.
  - rewrite IH. now destruct (dict_get k d).
Qed.

Lemma keys_dict_set_present (k : string) (v a : Account) (d : Bank) :
  dict_get k d = Some a -> map fst (dict_set k v d) = map fst d.
Proof. intro E. now rewrite keys_dict_set, E. Qed.

Lemma dict_get_None (k : string) (d : Bank) :
  dict_get k d = None <-> ~ In k (map fst d).
Proof.
  induction d as [|[k0 v0] d IH]; cbn; [tauto|].
  destruct (k =? k0)%string eqn:E.
  - apply String.eqb_eq in E. subst. split; [discriminate|tauto].
  - apply String.eqb_neq in E. rewrite IH. split; [|tauto].
    intros H [H1|H1]; [now subst|tauto].
Qed.

Lemma keys_on_account {A : Type} (k : string) (m : M Account A) (bank : Bank) :
  map fst (state (on_account k m bank)) = map fst bank.
Proof.
  unfold on_account. destruct (dict_get k bank) as [a|] eqn:E; cbn [state];
    [|reflexivity].
  now rewrite (keys_dict_set_present _ _ _ _ E).
Qed.

Lemma keys_transfer (current_month : Z)
    (from_account_number to_account_number : string) (amount : num)
    (bank : Bank) :
  map fst (state (Bank_transfer current_month from_account_number
                    to_account_number amount bank)) = map fst bank.
Proof.
  rewrite transfer_run.
  destruct (dict_get from_account_number bank) as [a|] eqn:Ea; [|reflexivity].
  destruct (dict_get to_account_number bank) as [b|] eqn:Eb; [|reflexivity].
  destruct (from_account_number =? to_account_number)%string eqn:Ek;
    [reflexivity|].
  destruct (leb amount zero); [reflexivity|].
  destruct (ltb (balance a) amount); [reflexivity|].
  destruct (limit_reached current_month a); cbn [state].
  - now rewrite (keys_dict_set_present _ _ _ _ Ea).
  - rewrite keys_dict_set, dict_get_set_other, Eb
      by (now rewrite String.eqb_sym).
    now rewrite (keys_dict_set_present _ _ _ _ Ea).
Qed.

Lemma keys_sweep (bank : Bank) :
  map fst (state (Bank_apply_interest_to_savings_accounts bank)) = map fst bank.
Proof.
  unfold Bank_apply_interest_to_savings_accounts.
  rewrite apply_interest_loop_run. cbn [state].
  rewrite map_map. apply map_ext. reflexivity.
Qed.

(** The account numbers after a call: those before, in the same order, with
    the generated number last when a creation stored it as a new key. *)
Lemma keys_perform (c : call) (bank : Bank) :
  map fst (perform lower c bank) = map fst bank \/
  exists k,
    generated_number c = Some k /\ dict_get k bank = None /\
    map fst (perform lower c bank) = map fst bank ++ [k].
Proof.
  destruct c as [uuid cm ty nm ib ir|k amt d|cm k amt d|k|cm k|cm kf kt amt| |];
    cbn [perform generated_number].
  - rewrite create_account_run.
    destruct (lower ty =? "checking")%string;
      [|destruct (lower ty =? "savings")%string];
      try destruct (ltb ib zero); cbn [state]; auto;
      rewrite keys_dict_set;
      (destruct (dict_get (substring 0 8 uuid) bank) eqn:E; [auto|]);
      right; exists (substring 0 8 uuid); auto.
  - left. apply keys_on_account.
  - left. apply keys_on_account.
  - left. apply keys_on_account.
  - left. apply keys_on_account.
  - left. apply keys_transfer.
  - left. apply keys_sweep.
  - left. reflexivity.
Qed.


Lemma keys_distinct (calls : list call) (bank : Bank) :
  NoDup (map fst bank) -> NoDup (map fst (run lower calls bank)).
Proof.
  revert bank. induction calls as [|c calls IH]; intros bank H; [exact H|].
  cbn [run]. apply IH.
  destruct (keys_perform c bank) as [E|(k & _ & En & E)]; rewrite E; [exact H|].
  apply NoDup_app; [exact H|constructor; [intros []|constructor]|].
  intros x Hx [<-|[]]. now apply dict_get_None in En.
Qed.

Lemma In_dict_get (k : string) (a : Account) (bank : Bank) :
  NoDup (map fst bank) -> In (k, a) bank -> dict_get k bank = Some a.
Proof.
  induction bank as [|[k0 a0] bank IH]; cbn; [tauto|].
  intros H [E|HI].
  - injection E as -> ->. now rewrite String.eqb_refl.
  - inversion H as [|? ? Hn Hd]; subst.
    destruct (k =? k0)%string eqn:E.
    + apply String.eqb_eq in E. subst k0. exfalso. apply Hn.
      apply (in_map fst) in HI. exact HI.
    + now apply IH.
Qed.

Lemma numbered_by_key (calls : list call) :
  holds (fun k a => account_number a = k) (run lower calls []).
Proof.
  apply kept_from_empty.
  - reflexivity.
  - reflexivity.
  - intros k cm a <-. apply same_identity_rolled_over.
  - intros k cm amount d a <- _ _ _. apply same_identity_withdrawn.
  - intros k amount d a <- _. reflexivity.
  - intros k a <-. apply same_identity_credited.
Qed.

Lemma numbers_are_keys (bank : Bank) :
  (forall k a, In (k, a) bank -> account_number a = k) ->
  map account_number (values bank) = map fst bank.
Proof.
  unfold values. induction bank as [|[k a] bank IH]; intro H; cbn; [reflexivity|].
  rewrite (H k a) by (left; reflexivity).
  rewrite IH; [reflexivity|]. intros k0 a0 HI. apply H. now right.
Qed.

(** X12: the bank's index is sound.  After any session from the empty bank
    every account is stored once and under its own account number: the
    accounts [get_all_accounts] lists have pairwise different numbers, and
    [get_account(k)] returns an account whose number is [k], or nothing. *)
Theorem bank_well_keyed (calls : list call) :
  well_keyed (run lower calls []) /\
  NoDup (map account_number (Bank_get_all_accounts (run lower calls []))) /\
  forall k account,
    Bank_get_account k (run lower calls []) = Some account ->
    account_number account = k.
Proof.
  assert (D : NoDup (map fst (run lower calls []))).
  { apply keys_distinct. constructor. }
  assert (K : forall k a, In (k, a) (run lower calls []) -> account_number a = k).
  { intros k a HI. apply (numbered_by_key calls). now apply In_dict_get. }
  split; [split; [exact D|exact K]|]. split.
  - unfold Bank_get_all_accounts. now rewrite numbers_are_keys.
  - intros k a E. apply (numbered_by_key calls). exact E.
Qed.

(** X13: a collision of generated numbers.  When [create_account] succeeds
    and the number it generated is already in use, the new account takes the
    place of the account stored under that number: the bank has the same
    account numbers in the same order, the lookup of that number now gives
    the new account, with the initial balance and the log of a new account,
    and every other account is as it was.  The account stored before is no
    longer in the bank. *)
Theorem create_account_replaces (uuid : string) (current_month : Z)
    (account_type holder : string) (initial_balance interest_rate : num)
    (bank : Bank) (old account : Account) :
  let r := Bank_create_account lower uuid current_month account_type holder
             initial_balance interest_rate bank in
  dict_get (substring 0 8 uuid) bank = Some old ->
  result r = Returned account ->
  map fst (state r) = map fst bank /\
  length (state r) = length bank /\
  dict_get (substring 0 8 uuid) (state r) = Some account /\
  balance account = initial_balance /\
  transactions account = initial_log initial_balance /\
  name account = holder /\
  forall k, k <> substring 0 8 uuid -> dict_get k (state r) = dict_get k bank.
Proof.
  cbv zeta. intros E Hr.
  revert Hr. rewrite create_account_run.
  destruct (lower account_type =? "checking")%string;
    [|destruct (lower account_type =? "savings")%string];
    try destruct (ltb initial_balance zero); try discriminate;
    cbn [result state]; intros [= <-];
    (split; [now rewrite (keys_dict_set_present _ _ _ _ E)|]);
    (split; [rewrite <- !(length_map fst);
             now rewrite (keys_dict_set_present _ _ _ _ E)|]);
    (split; [apply dict_get_set_same|]);
    (repeat (split; [reflexivity|]));
    intros k Hk; apply String.eqb_neq in Hk; now apply dict_get_set_other.
Qed.

(** *** The classes of the accounts *)

Lemma kinds_dict_set (k : string) (v a : Account) (d : Bank) :
  dict_get k d = Some a ->
  isinstance_SavingsAccount v = isinstance_SavingsAccount a ->
  kinds (dict_set k v d) = kinds d.
Proof.
  unfold kinds. induction d as [|[k0 a0] d IH]; cbn; [discriminate|].
  destruct (k =? k0)%string eqn:E; cbn.
  - intros [= ->] ->. reflexivity.
  - intros H1 H2. now rewrite IH.
Qed.

Lemma isinstance_same_identity (a a' : Account) :
  same_identity a a' ->
  isinstance_SavingsAccount a' = isinstance_SavingsAccount a.
Proof.
  unfold same_identity, isinstance_SavingsAccount.
  intros (_ & _ & H). destruct (class a), (class a'); tauto.
Qed.

Lemma same_identity_withdraw (current_month : Z) (amount : num)
    (description : string) (a : Account) :
  same_identity a (state (withdraw current_month amount description a)).
Proof.
  apply (related_withdraw (fun _ => True) same_identity); auto.
  - intros cm x _. apply same_identity_rolled_over.
  - intros cm amt d x _ _ _ _. apply same_identity_withdrawn.
Qed.

Lemma same_identity_deposit (amount : num) (description : string) (a : Account) :
  same_identity a (state (deposit amount description a)).
Proof.
  apply (related_deposit same_identity).
  - apply same_identity_refl.
  - intros amt d x _. apply same_identity_deposited.
Qed.

Lemma kinds_on_account {A : Type} (k : string) (m : M Account A) (bank : Bank) :
  (forall a, same_identity a (state (m a))) ->
  kinds (state (on_account k m bank)) = kinds bank.
Proof.
  intro H. unfold on_account.
  destruct (dict_get k bank) as [a|] eqn:E; cbn [state]; [|reflexivity].
  apply (kinds_dict_set _ _ _ _ E), isinstance_same_identity, H.
Qed.

Lemma kinds_transfer (current_month : Z)
    (from_account_number to_account_number : string) (amount : num)
    (bank : Bank) :
  kinds (state (Bank_transfer current_month from_account_number
                  to_account_number amount bank)) = kinds bank.
Proof.
  rewrite transfer_run.
  destruct (dict_get from_account_number bank) as [a|] eqn:Ea; [|reflexivity].
  destruct (dict_get to_account_number bank) as [b|] eqn:Eb; [|reflexivity].
  destruct (from_account_number =? to_account_number)%string eqn:Ek;
    [reflexivity|].
  destruct (leb amount zero); [reflexivity|].
  destruct (ltb (balance a) amount); [reflexivity|].
  destruct (limit_reached current_month a); cbn [state].
  - apply (kinds_dict_set _ _ _ _ Ea), isinstance_rolled_over.
  - rewrite (kinds_dict_set _ _ b).
    + apply (kinds_dict_set _ _ _ _ Ea), isinstance_same_identity,
        same_identity_withdrawn.
    + rewrite dict_get_set_other; [exact Eb|now rewrite String.eqb_sym].
    + reflexivity.
Qed.

Lemma kinds_sweep (bank : Bank) :
  kinds (state (Bank_apply_interest_to_savings_accounts bank)) = kinds bank.
Proof.
  unfold Bank_apply_interest_to_savings_accounts, kinds.
  rewrite apply_interest_loop_run. cbn [state].
  rewrite map_map. apply map_ext. intros [k a]. cbn.
  apply isinstance_same_identity, same_identity_credited.
Qed.

Lemma kinds_perform (c : call) (bank : Bank) :
  generated_number c = None -> kinds (perform lower c bank) = kinds bank.
Proof.
  destruct c as [uuid cm ty nm ib ir|k amt d|cm k amt d|k|cm k|cm kf kt amt| |];
    cbn [perform generated_number]; intro H.
  - discriminate.
  - apply kinds_on_account, same_identity_deposit.
  - apply kinds_on_account, same_identity_withdraw.
  - apply kinds_on_account. intro a. rewrite apply_interest_state.
    apply same_identity_credited.
  - apply kinds_on_account. intro a. rewrite withdrawals_remaining_state.
    apply same_identity_rolled_over.
  - apply kinds_transfer.
  - apply kinds_sweep.
  - reflexivity.
Qed.

Lemma savings_count_kinds (bank : Bank) :
  length (filter isinstance_SavingsAccount (values bank)) =
    length (filter (fun b => b) (kinds bank)).
Proof.
  unfold values, kinds. induction bank as [|[k a] bank IH]; cbn; [reflexivity|].
  destruct (isinstance_SavingsAccount a); cbn; now rewrite IH.
Qed.

Lemma checking_count_kinds (bank : Bank) :
  length (filter isinstance_CheckingAccount (values bank)) =
    length (filter negb (kinds bank)).
Proof.
  unfold values, kinds. induction bank as [|[k a] bank IH]; cbn; [reflexivity|].
  replace (isinstance_CheckingAccount a) with (negb (isinstance_SavingsAccount a))
    by (unfold isinstance_CheckingAccount, isinstance_SavingsAccount;
        now destruct (class a)).
  destruct (isinstance_SavingsAccount a); cbn; now rewrite IH.
Qed.

(** X14: the counts of the statistics change only by creation.  A call other
    than [create_account] -- a deposit, a withdrawal, a transfer, interest,
    a query, whether it succeeds or fails -- leaves the three account counts
    that [get_bank_statistics] reports as they were. *)
Theorem statistics_counts_kept (c : call) (bank : Bank) :
  generated_number c = None ->
  exists s s',
    result (Bank_get_bank_statistics bank) = Returned s /\
    result (Bank_get_bank_statistics (perform lower c bank)) = Returned s' /\
    total_accounts s' = total_accounts s /\
    checking_accounts s' = checking_accounts s /\
    savings_accounts s' = savings_accounts s.
Proof.
  intros Hc. rewrite !statistics_run. cbn [result].
  eexists. eexists. split; [reflexivity|]. split; [reflexivity|].
  cbn [total_accounts checking_accounts savings_accounts].
  rewrite !checking_count_kinds, !savings_count_kinds, (kinds_perform c bank Hc).
  split; [|split; reflexivity].
  pose proof (f_equal (@length bool) (kinds_perform c bank Hc)) as H.
  unfold kinds in H. now rewrite !length_map in H.
Qed.

End Persistence.

(** ** Withdrawals of one month *)

Section MonthlyWithdrawals.

Context {N : Number}.
Variable lower : string -> string.

Lemma withdrawals_logged_same (a a' : Account) :
  transactions a' = transactions a -> withdrawals_logged a' = withdrawals_logged a.
Proof. unfold withdrawals_logged. now intros ->. Qed.

Lemma withdrawals_logged_append (t : Transaction) (a a' : Account) :
  transactions a' = transactions a ++ [t] ->
  withdrawals_logged a' =
    (withdrawals_logged a +
     if (transaction_type t =? "withdrawal")%string then 1 else 0)%Z.
Proof.
  unfold withdrawals_logged. intros ->. rewrite filter_app, length_app. cbn.
  destruct (transaction_type t =? "withdrawal")%string; cbn; lia.
Qed.

Lemma counts_withdrawals_refl (current_month : Z) (a : Account) :
  counts_withdrawals current_month a a.
Proof. unfold counts_withdrawals. destruct (class a); [exact I|lia]. Qed.

Lemma counts_withdrawals_trans (current_month : Z) (a b c : Account) :
  counts_withdrawals current_month a b ->
  counts_withdrawals current_month b c ->
  counts_withdrawals current_month a c.
Proof.
  unfold counts_withdrawals.
  destruct (class a), (class b), (class c); try tauto. lia.
Qed.

Lemma count_after_rollover_current (current_month count : Z) (r : num) (l : Z) :
  count_after_rollover current_month
    (mkSavingsFields r l count (Some current_month)) = count.
Proof.
  unfold count_after_rollover, month_differs. cbn. now rewrite Z.eqb_refl.
Qed.

Lemma counts_withdrawals_rolled_over (current_month : Z) (a : Account) :
  counts_withdrawals current_month a (rolled_over current_month a).
Proof.
  unfold counts_withdrawals. destruct (class a) as [|f] eqn:E.
  - unfold rolled_over. now rewrite E, E.
  - rewrite (class_rolled_over f _ _ E), count_after_rollover_current.
    rewrite (withdrawals_logged_same a) by apply transactions_rolled_over. lia.
Qed.

Lemma counts_withdrawals_withdrawn (current_month : Z) (amount : num)
    (description : string) (a : Account) :
  counts_withdrawals current_month a
    (withdrawn current_month amount description a).
Proof.
  unfold counts_withdrawals. destruct (class a) as [|f] eqn:E.
  - now rewrite class_withdrawn_checking.
  - rewrite (class_withdrawn f _ _ _ _ E), count_after_rollover_current.
    rewrite (withdrawals_logged_append _ a _ (transactions_withdrawn _ _ _ _)).
    cbn. lia.
Qed.

Lemma counts_withdrawals_deposited (current_month : Z) (amount : num)
    (description : string) (a : Account) :
  counts_withdrawals current_month a (deposited amount description a).
Proof.
  unfold counts_withdrawals. cbn [class deposited append_transaction set_balance].
  destruct (class a) as [|f]; [exact I|].
  rewrite (withdrawals_logged_append
             (mkTransaction "deposit" amount description) a) by reflexivity.
  cbn. lia.
Qed.

Lemma counts_withdrawals_credited (current_month : Z) (a : Account) :
  counts_withdrawals current_month a (credited a).
Proof.
  unfold credited. destruct (_ && _); [|apply counts_withdrawals_refl].
  unfold counts_withdrawals. cbn [class append_transaction set_balance].
  destruct (class a) as [|f]; [exact I|].
  rewrite (withdrawals_logged_append
             (mkTransaction "interest" (interest_amount a) "Monthly interest") a)
    by reflexivity.
  cbn. lia.
Qed.

(** Through a session of one month, a savings account counts exactly the
    withdrawals its log gains. *)
Lemma counts_withdrawals_run (current_month : Z) (calls : list call)
    (bank : Bank) (k : string) (a : Account) :
  no_collisions lower calls bank ->
  Forall (call_months (fun m => m = current_month)) calls ->
  dict_get k bank = Some a ->
  exists a',
    dict_get k (run lower calls bank) = Some a' /\
    counts_withdrawals current_month a a'.
Proof.
  apply (related_run lower (fun m => m = current_month)
           (counts_withdrawals current_month)).
  - apply counts_withdrawals_refl.
  - intros cm x ->. apply counts_withdrawals_rolled_over.
  - intros cm amount d x -> _ _ _. apply counts_withdrawals_withdrawn.
  - intros amount d x _. apply counts_withdrawals_deposited.
  - apply counts_withdrawals_credited.
  - apply counts_withdrawals_trans.
Qed.

(** X15: at most three withdrawals a month.  Take a bank reached by any
    session from the empty bank and a savings account in it, and let any
    calls follow that all happen in one month and create no account under a
    number in use.  Then the "withdrawal" entries the log of the account
    gains (its own withdrawals and its outgoing transfers) are exactly the
    withdrawals its monthly counter gains, and there are at most 3 of them,
    less the withdrawals already counted in that month. *)
Theorem at_most_three_withdrawals_a_month (before calls : list call)
    (current_month : Z) (k : string) (account : Account) (f : SavingsFields) :
  let bank := run lower before [] in
  dict_get k bank = Some account ->
  class account = SavingsAccount f ->
  Forall (call_months (fun m => m = current_month)) calls ->
  no_collisions lower calls bank ->
  exists account' f',
    dict_get k (run lower calls bank) = Some account' /\
    class account' = SavingsAccount f' /\
    (withdrawals_logged account' - withdrawals_logged account =
     count_after_rollover current_month f' -
     count_after_rollover current_month f)%Z /\
    (withdrawals_logged account' - withdrawals_logged account <=
     3 - count_after_rollover current_month f)%Z /\
    (0 <= count_after_rollover current_month f)%Z.
Proof.
  cbv zeta. intros E C Hm Hc.
  destruct (counts_withdrawals_run current_month calls _ k account Hc Hm E)
    as (a' & E' & R).
  pose proof (counter_from_empty lower before k account E) as I0.
  pose proof (counter_kept lower calls _ (counter_from_empty lower before)
                k a' E') as I1.
  unfold counts_withdrawals in R. unfold counter_within_limit in I0, I1.
  rewrite C in R, I0. destruct (class a') as [|f'] eqn:C'; [contradiction|].
  exists a', f'. split; [exact E'|]. split; [exact C'|].
  split; [exact R|].
  unfold count_after_rollover in *.
  destruct (month_differs (last_withdrawal_month f') current_month),
    (month_differs (last_withdrawal_month f) current_month); lia.
Qed.

End MonthlyWithdrawals.

(** ** The total balance *)

Section Conservation.

Context {N : Number} {EA : ExactAddition N} {ES : ExactSubtraction N}.

Lemma add_swap (x y z : num) : add (add x y) z = add (add x z) y.
Proof.
  now rewrite <- add_assoc, (add_comm y z), add_assoc.
Qed.

(** Replacing a stored account changes the total by the difference of the
    balances. *)
Lemma total_dict_set (k : string) (a a' : Account) (bank : Bank) :
  dict_get k bank = Some a ->
  add (py_sum (map balance (values (dict_set k a' bank)))) (balance a) =
  add (py_sum (map balance (values bank))) (balance a').
Proof.
  unfold values.
  induction bank as [|[k0 a0] bank IH]; cbn [dict_get dict_set]; [discriminate|].
  destruct (k =? k0)%string; cbn [map snd].
  - intros [= ->]. rewrite !py_sum_cons.
    rewrite (add_comm (balance a')), (add_comm (balance a)). apply add_swap.
  - intro E. rewrite !py_sum_cons, <- !add_assoc. now rewrite IH.
Qed.

Lemma total_dict_set_same_balance (k : string) (a a' : Account) (bank : Bank) :
  dict_get k bank = Some a ->
  balance a' = balance a ->
  py_sum (map balance (values (dict_set k a' bank))) =
  py_sum (map balance (values bank)).
Proof.
  intros E Hb. apply (add_cancel_r _ _ (balance a)).
  now rewrite (total_dict_set k a a' bank E), Hb.
Qed.

(** [Bank.transfer] keeps the sum of all balances. *)
Lemma total_transfer (current_month : Z)
    (from_account_number to_account_number : string) (amount : num)
    (bank : Bank) :
  py_sum (map balance
            (values (state (Bank_transfer current_month from_account_number
                              to_account_number amount bank)))) =
  py_sum (map balance (values bank)).
Proof.
  rewrite transfer_run.
  destruct (dict_get from_account_number bank) as [a|] eqn:Ea; [|reflexivity].
  destruct (dict_get to_account_number bank) as [b|] eqn:Eb; [|reflexivity].
  destruct (from_account_number =? to_account_number)%string eqn:Ek;
    [reflexivity|].
  destruct (leb amount zero); [reflexivity|].
  destruct (ltb (balance a) amount); [reflexivity|].
  destruct (limit_reached current_month a); cbn [state].
  - apply (total_dict_set_same_balance _ a); [exact Ea|].
    apply balance_rolled_over.
  - set (a' := withdrawn current_month amount _ a).
    set (b' := deposited amount _ b).
    assert (Eb' : dict_get to_account_number
                    (dict_set from_account_number a' bank) = Some b).
    { rewrite dict_get_set_other; [exact Eb|now rewrite String.eqb_sym]. }
    pose proof (total_dict_set _ _ b' _ Eb') as H2.
    pose proof (total_dict_set _ _ a' _ Ea) as H1.
    unfold a' in H1 at 2. rewrite balance_withdrawn in H1.
    unfold b' in H2 at 2. unfold deposited in H2.
    cbn [balance append_transaction set_balance] in H2.
    set (T2 := py_sum (map balance (values (dict_set to_account_number b' _))))
      in *.
    set (T1 := py_sum (map balance (values (dict_set from_account_number a' bank))))
      in *.
    set (T0 := py_sum (map balance (values bank))) in *.
    assert (H3 : T2 = add T1 amount).
    { apply (add_cancel_r _ _ (balance b)).
      now rewrite H2, add_swap, <- add_assoc. }
    assert (H4 : add T1 amount = T0).
    { apply (add_cancel_r _ _ (balance a)).
      rewrite add_swap, H1, <- add_assoc. now rewrite sub_add. }
    now rewrite H3.
Qed.

(** X16: transfers conserve the total.  When additions and subtractions are
    exact, a transfer -- whether it succeeds, returns [False] or raises --
    leaves the total balance that [get_bank_statistics] reports as it
    was. *)
Theorem transfer_conserves_total (current_month : Z)
    (from_account_number to_account_number : string) (amount : num)
    (bank : Bank) :
  let r := Bank_transfer current_month from_account_number to_account_number
             amount bank in
  exists s s',
    result (Bank_get_bank_statistics bank) = Returned s /\
    result (Bank_get_bank_statistics (state r)) = Returned s' /\
    total_balance s' = total_balance s.
Proof.
  cbv zeta. rewrite !statistics_run. cbn [result].
  eexists. eexists. split; [reflexivity|]. split; [reflexivity|].
  cbn [total_balance]. apply total_transfer.
Qed.

End Conservation.

(** ** The console *)

Section ConsoleFacts.

Context {A E : Type}.
Variable prompt : string.
Variable validation_func : string -> validation A E.
Variable error_message : string.

(** What the terminal shows for the lines the validation rejects. *)
Lemma get_valid_input_rejected (rejected stdin : list string) :
  Forall (fun line => validation_func line = Rejects) rejected ->
  get_valid_input prompt validation_func error_message (rejected ++ stdin) =
    let r := get_valid_input prompt validation_func error_message stdin in
    mkReading (read_result r) (stdin_left r)
      (flat_map (fun _ => [Prompt prompt; Line error_message]) rejected ++
       terminal r).
Proof.
  induction 1 as [|line rejected Hl _ IH]; cbn [app flat_map get_valid_input].
  - now destruct (get_valid_input _ _ _ stdin).
  - rewrite Hl, IH. reflexivity.
Qed.

(** X17: [get_valid_input].  It reads lines until one passes the validation:
    for each line on which [validation_func] raises [ValueError] or
    [TypeError] it prints the error message and prompts again.  It returns
    what [validation_func] returned for the first other line and reads
    nothing after it; an exception of another class raised by
    [validation_func] ends the call; and when the input ends first, [input]
    raises [EOFError]. *)
Theorem get_valid_input_contract (rejected : list string) :
  Forall (fun line => validation_func line = Rejects) rejected ->
  let shown_for_rejected :=
    flat_map (fun _ => [Prompt prompt; Line error_message]) rejected in
  (forall user_input rest result,
     validation_func user_input = Accepts result ->
     get_valid_input prompt validation_func error_message
       (rejected ++ user_input :: rest) =
       mkReading (Read result) rest (shown_for_rejected ++ [Prompt prompt])) /\
  (forall user_input rest e,
     validation_func user_input = Fails e ->
     get_valid_input prompt validation_func error_message
       (rejected ++ user_input :: rest) =
       mkReading (ReadRaised e) rest (shown_for_rejected ++ [Prompt prompt])) /\
  get_valid_input prompt validation_func error_message rejected =
    mkReading EOFError [] (shown_for_rejected ++ [Prompt prompt]).
Proof.
  intro H. cbv zeta. split; [|split].
  - intros user_input rest result Hv.
    rewrite (get_valid_input_rejected _ _ H). cbn. now rewrite Hv.
  - intros user_input rest e Hv.
    rewrite (get_valid_input_rejected _ _ H). cbn. now rewrite Hv.
  - rewrite <- (app_nil_r rejected) at 1.
    now rewrite (get_valid_input_rejected _ _ H).
Qed.

End ConsoleFacts.

Section AmountValidation.

Context {N : Number} {E : Type}.
Variable float : string -> option num.

(** X18: the validation of amounts does not reject a number that is not
    positive.  With the validation lambda of the deposit, withdrawal and
    transfer menus, [get_valid_input] prints the error message only for the
    lines [float] cannot convert.  For the first line it converts, it returns
    the number when that is [> 0]; otherwise -- for a line such as [-5] or
    [0] -- it prints no error message and does not prompt again: it returns
    the [ValueError] instance the lambda built, as the amount. *)
Theorem positive_amount_validation (prompt error_message : string)
    (rejected : list string) (user_input : string) (v : num)
    (rest : list string) :
  Forall (fun line => float line = None) rejected ->
  float user_input = Some v ->
  get_valid_input prompt (positive_amount (E := E) float) error_message
    (rejected ++ user_input :: rest) =
    mkReading
      (Read (if ltb zero v then Number_read v else ValueError_instance))
      rest
      (flat_map (fun _ => [Prompt prompt; Line error_message]) rejected ++
       [Prompt prompt]).
Proof.
  intros Hr Hv. rewrite get_valid_input_rejected.
  - cbn. unfold positive_amount. rewrite Hv. now destruct (ltb zero v).
  - eapply Forall_impl; [|exact Hr]. cbn. intros line Hl.
    unfold positive_amount. now rewrite Hl.
Qed.

End AmountValidation.

(** * Instances of the further properties *)

(** X2, instance: Alice's balance follows from her log; a "deposit" record of
    1 added with [add_transaction_record] breaks that, a "transfer" record
    does not. *)
Lemma add_transaction_record_contract_witness :
  ledger_sum 500%float alice /\
  ~ ledger_sum 500%float
      (state (Account_add_transaction_record "deposit" 1%float "bonus" alice)) /\
  ledger_sum 500%float
    (state (Account_add_transaction_record "transfer" 1%float "note" alice)).
Proof.
  assert (H : ledger_sum 500%float alice) by (exists []; split; reflexivity).
  split; [exact H|]. split.
  - intro F.
    apply (proj2 (proj2 (proj2 (proj2 (proj2
             (add_transaction_record_contract "deposit" 1%float "bonus"
                500%float alice))))) H) in F.
    apply (f_equal (fun x => PrimFloat.eqb x 500%float)) in F.
    vm_compute in F. discriminate F.
  - apply (proj2 (proj2 (proj2 (proj2 (proj2
             (add_transaction_record_contract "transfer" 1%float "note"
                500%float alice))))) H).
    reflexivity.
Defined.

(** X3, instance: at his limit Bob has no withdrawal left in month 1 and
    three in month 2. *)
Lemma withdrawals_remaining_contract_witness :
  class bob_at_limit = SavingsAccount bob_fields_at_limit /\
  result (SavingsAccount_withdrawals_remaining 1 bob_at_limit) = Returned 0%Z /\
  result (SavingsAccount_withdrawals_remaining 2 bob_at_limit) = Returned 3%Z.
Proof.
  split; [reflexivity|]. split.
  - exact (proj1 (withdrawals_remaining_contract bob_fields_at_limit 1
                    bob_at_limit eq_refl)).
  - exact (proj1 (withdrawals_remaining_contract bob_fields_at_limit 2
                    bob_at_limit eq_refl)).
Defined.

(** X6, instance: Bob after his three withdrawals. *)
Lemma monthly_counter_within_limit_witness :
  dict_get "bbbbbbbb" (run str_lower bob_at_limit_session []) = Some bob_at_limit /\
  withdrawal_limit bob_fields_at_limit = 3%Z /\
  (0 <= withdrawals_this_month bob_fields_at_limit <= 3)%Z /\
  exists remaining,
    result (SavingsAccount_withdrawals_remaining 2 bob_at_limit) =
      Returned remaining /\
    (0 <= remaining <= 3)%Z.
Proof.
  split; [vm_compute; reflexivity|].
  apply (monthly_counter_within_limit str_lower bob_at_limit_session "bbbbbbbb"
           bob_at_limit bob_fields_at_limit 2);
    [vm_compute; reflexivity|reflexivity].
Defined.

(** X7, instance: Bob's transfer at his limit returns [False] and leaves the
    bank as it was. *)
Lemma failed_transfer_changes_nothing_witness :
  let bank := run str_lower bob_at_limit_session [] in
  let r := Bank_transfer 1 "bbbbbbbb" "aaaaaaaa" 10%float bank in
  result r = Returned false /\ state r = bank.
Proof.
  cbv zeta. split; [vm_compute; reflexivity|].
  apply (failed_transfer_changes_nothing str_lower bob_at_limit_session 1
           "bbbbbbbb" "aaaaaaaa" 10%float).
  vm_compute. discriminate.
Defined.

(** X8, instance: Bob transfers 100 to Alice; it is his first withdrawal of
    the month. *)
Lemma transfer_counts_as_withdrawal_witness :
  let r := Bank_transfer 1 "bbbbbbbb" "aaaaaaaa" 100%float alice_and_bob_bank in
  dict_get "bbbbbbbb" alice_and_bob_bank = Some bob /\
  result r = Returned true /\
  exists from_account',
    dict_get "bbbbbbbb" (state r) = Some from_account' /\
    class from_account' =
      SavingsAccount (mkSavingsFields 0.05%float 3 1 (Some 1%Z)).
Proof.
  cbv zeta. split; [vm_compute; reflexivity|].
  split; [vm_compute; reflexivity|].
  refine (proj1 (proj2
            (transfer_counts_as_withdrawal 1 "bbbbbbbb" "aaaaaaaa" 100%float
               alice_and_bob_bank bob bob_fields _ eq_refl _)));
    vm_compute; reflexivity.
Defined.

(** X9, instance: Alice through the calls that follow the scenario. *)
Lemma accounts_persist_witness :
  no_collisions str_lower later_calls alice_and_bob_bank /\
  exists account',
    dict_get "aaaaaaaa" (run str_lower later_calls alice_and_bob_bank) =
      Some account' /\
    same_identity alice account' /\
    exists later, transactions account' = transactions alice ++ later.
Proof.
  split; [vm_compute; repeat split|].
  apply (accounts_persist str_lower later_calls alice_and_bob_bank "aaaaaaaa"
           alice);
    [vm_compute; repeat split|vm_compute; reflexivity].
Defined.

(** X10, instance: the transfer to Bob appends one entry to his log. *)
Lemma one_entry_per_call_witness :
  exists account' later,
    dict_get "bbbbbbbb"
      (perform str_lower (transfer 1 "aaaaaaaa" "bbbbbbbb" 200%float)
         alice_and_bob_bank) = Some account' /\
    transactions account' = transactions bob ++ later /\
    (length later <= 1)%nat.
Proof.
  apply (one_entry_per_call str_lower
           (transfer 1 "aaaaaaaa" "bbbbbbbb" 200%float) alice_and_bob_bank
           "bbbbbbbb" bob);
    [exact I|vm_compute; reflexivity].
Defined.

(** X13, instance: Mallory's account is given the number of Alice's. *)
Lemma create_account_replaces_witness :
  let r := Bank_create_account str_lower "aaaaaaaa-9999-4000-8000-00000000000a"
             1 "savings" "Mallory" 5%float 0.01%float alice_and_bob_bank in
  dict_get "aaaaaaaa" alice_and_bob_bank = Some alice /\
  result r = Returned mallory /\
  map fst (state r) = map fst alice_and_bob_bank /\
  length (state r) = length alice_and_bob_bank /\
  dict_get "aaaaaaaa" (state r) = Some mallory.
Proof.
  cbv zeta. split; [vm_compute; reflexivity|].
  split; [vm_compute; reflexivity|].
  destruct (create_account_replaces str_lower
              "aaaaaaaa-9999-4000-8000-00000000000a" 1 "savings" "Mallory"
              5%float 0.01%float alice_and_bob_bank alice mallory)
    as (H1 & H2 & H3 & _); [vm_compute; reflexivity|vm_compute; reflexivity|].
  split; [exact H1|]. split; [exact H2|exact H3].
Defined.

(** X14, instance: the counts before and after Alice's transfer to Bob. *)
Lemma statistics_counts_kept_witness :
  exists s s',
    result (Bank_get_bank_statistics alice_and_bob_bank) = Returned s /\
    result (Bank_get_bank_statistics
              (perform str_lower (transfer 1 "aaaaaaaa" "bbbbbbbb" 200%float)
                 alice_and_bob_bank)) = Returned s' /\
    total_accounts s' = total_accounts s /\
    checking_accounts s' = checking_accounts s /\
    savings_accounts s' = savings_accounts s.
Proof.
  apply (statistics_counts_kept str_lower
           (transfer 1 "aaaaaaaa" "bbbbbbbb" 200%float) alice_and_bob_bank).
  reflexivity.
Defined.

(** X15, instance: Bob's busy month. *)
Lemma at_most_three_withdrawals_a_month_witness :
  exists account' f',
    dict_get "bbbbbbbb" (run str_lower busy_month (run str_lower alice_and_bob []))
      = Some account' /\
    class account' = SavingsAccount f' /\
    (withdrawals_logged account' - withdrawals_logged bob =
     count_after_rollover 1 f' - count_after_rollover 1 bob_fields)%Z /\
    (withdrawals_logged account' - withdrawals_logged bob <=
     3 - count_after_rollover 1 bob_fields)%Z /\
    (0 <= count_after_rollover 1 bob_fields)%Z.
Proof.
  apply (at_most_three_withdrawals_a_month str_lower alice_and_bob busy_month 1
           "bbbbbbbb" bob bob_fields).
  - vm_compute. reflexivity.
  - reflexivity.
  - repeat constructor.
  - vm_compute. repeat split.
Defined.

(** X16, instance: Alice's transfer of 200 to Bob in exact arithmetic. *)
Lemma transfer_conserves_total_witness :
  let r := Bank_transfer 1 "aaaaaaaa" "bbbbbbbb" (Q2Qc 200) exact_bank in
  result r = Returned true /\
  exists s s',
    result (Bank_get_bank_statistics exact_bank) = Returned s /\
    result (Bank_get_bank_statistics (state r)) = Returned s' /\
    total_balance s' = total_balance s.
Proof.
  cbv zeta. split; [vm_compute; reflexivity|].
  apply (@transfer_conserves_total exact exact_addition exact_subtraction 1
           "aaaaaaaa" "bbbbbbbb" (Q2Qc 200) exact_bank).
Defined.

(** X17, instance: "abc" is rejected, "20" accepted and "7" left unread; with
    "abc" alone the input ends. *)
Lemma get_valid_input_contract_witness :
  let validation_func :=
    @positive_amount binary64 Empty_set float_of_typed in
  let prompt := "Enter deposit amount: " in
  let error_message := "Invalid amount. Please enter a positive number." in
  get_valid_input prompt validation_func error_message ["abc"; "20"; "7"] =
    mkReading (Read (Number_read 20%float)) ["7"]
      [Prompt prompt; Line error_message; Prompt prompt] /\
  get_valid_input prompt validation_func error_message ["abc"] =
    mkReading EOFError [] [Prompt prompt; Line error_message; Prompt prompt].
Proof.
  cbv zeta.
  destruct (get_valid_input_contract "Enter deposit amount: "
              (@positive_amount binary64 Empty_set float_of_typed)
              "Invalid amount. Please enter a positive number." ["abc"])
    as (H1 & _ & H3); [repeat constructor|].
  split; [|exact H3].
  apply (H1 "20" ["7"] (Number_read 20%float)). reflexivity.
Defined.

(** X18, instance: "abc" is answered with the error message; "-5" is not: it
    ends the call with a [ValueError] instance as the amount, and "20" is
    left unread. *)
Lemma positive_amount_validation_witness :
  let prompt := "Enter deposit amount: " in
  let error_message := "Invalid amount. Please enter a positive number." in
  get_valid_input prompt (@positive_amount binary64 Empty_set float_of_typed)
    error_message ["abc"; "-5"; "20"] =
    mkReading (Read ValueError_instance) ["20"]
      [Prompt prompt; Line error_message; Prompt prompt].
Proof.
  cbv zeta.
  apply (@positive_amount_validation binary64 Empty_set float_of_typed
           "Enter deposit amount: "
           "Invalid amount. Please enter a positive number."
           ["abc"] "-5" (-5)%float ["20"]);
    [repeat constructor|reflexivity].
Defined.

(** In binary64 a transfer can change the total: Faythe holds 1e16 and
    transfers 1 to Grace; 1e16 - 1 rounds back to 1e16, so Faythe keeps her
    balance while Grace gains 1, and the total the statistics report grows
    from 1e16 to 10000000000000002, whether the balances are added from the
    left or with the compensated [sum] of CPython 3.12. *)
Lemma transfer_total_rounds :
  let bank := run str_lower large_and_one [] in
  let r := Bank_transfer 1 "10000000" "20000000" 1%float bank in
  result r = Returned true /\
  option_map balance (dict_get "10000000" (state r)) = Some 1e16%float /\
  option_map balance (dict_get "20000000" (state r)) = Some 2%float /\
  py_sum (map balance (values bank)) = 1e16%float /\
  py_sum (map balance (values (state r))) = 10000000000000002%float /\
  py_sum_compensated (map balance (values bank)) = 1e16%float /\
  py_sum_compensated (map balance (values (state r))) =
    10000000000000002%float.
Proof. cbv zeta. repeat split; vm_compute; reflexivity. Qed.
